(** * video/vaapi.c: VA-API surfaces, image formats and transfers

    A shallow embedding of mpv's [video/vaapi.c].  The libva driver is an
    external collaborator: every call into it (and into the generic
    [mp_image] helpers) is recorded, with its arguments, in a chronological
    call log, and its answers are drawn from an arbitrary [va_driver] oracle
    that may depend on the whole history of calls.  Functions of the C file
    become functions in a state monad over that log; the structs they mutate
    through pointers are passed in and handed back as values.

    Integers are [Z], taken within the range of their C type; conversions
    between C integer types are written out where the code performs them.
    The surface argument of the static functions, which every caller has
    dereferenced before the call, is a value: their tests for a NULL surface
    are not modelled.  Diagnostics ([mp_err], [MP_VERBOSE], [MP_ERR]) have no
    effect on control flow and are left out, as is the release of memory
    ([talloc_free]). *)

From Stdlib Require Import ZArith Lia Ascii.
From stdpp Require Import base list.

Open Scope Z_scope.

(** ** Machine integers *)

(** Conversion to [uint32_t] / [unsigned int]. *)
Definition to_uint32 (z : Z) : Z := z mod 2 ^ 32.

(** Conversion to [int] (two's complement, 32 bits). *)
Definition to_int (z : Z) : Z :=
  let u := z mod 2 ^ 32 in if u <? 2 ^ 31 then u else u - 2 ^ 32.

(** ** Constants of libva's [va.h] *)

Definition VA_STATUS_SUCCESS : Z := 0.
Definition VA_STATUS_ERROR_OPERATION_FAILED : Z := 1.
Definition VA_INVALID_ID : Z := 0xffffffff.

(** [VA_FOURCC(ch0, ch1, ch2, ch3)]: four characters packed little-endian. *)
Definition VA_FOURCC (ch0 ch1 ch2 ch3 : ascii) : Z :=
  Z.lor (Z.of_nat (nat_of_ascii ch0))
    (Z.lor (Z.shiftl (Z.of_nat (nat_of_ascii ch1)) 8)
       (Z.lor (Z.shiftl (Z.of_nat (nat_of_ascii ch2)) 16)
          (Z.shiftl (Z.of_nat (nat_of_ascii ch3)) 24))).

Definition VA_FOURCC_YV12 : Z := Eval cbv in VA_FOURCC "Y" "V" "1" "2".
Definition VA_FOURCC_I420 : Z := Eval cbv in VA_FOURCC "I" "4" "2" "0".
Definition VA_FOURCC_IYUV : Z := Eval cbv in VA_FOURCC "I" "Y" "U" "V".
Definition VA_FOURCC_NV12 : Z := Eval cbv in VA_FOURCC "N" "V" "1" "2".
Definition VA_FOURCC_UYVY : Z := Eval cbv in VA_FOURCC "U" "Y" "V" "Y".
Definition VA_FOURCC_YUY2 : Z := Eval cbv in VA_FOURCC "Y" "U" "Y" "2".
Definition VA_FOURCC_RGBA : Z := Eval cbv in VA_FOURCC "R" "G" "B" "A".
Definition VA_FOURCC_RGBX : Z := Eval cbv in VA_FOURCC "R" "G" "B" "X".
Definition VA_FOURCC_BGRA : Z := Eval cbv in VA_FOURCC "B" "G" "R" "A".
Definition VA_FOURCC_BGRX : Z := Eval cbv in VA_FOURCC "B" "G" "R" "X".

(** ** Data model *)

(** [enum mp_imgfmt] of [img_format.h]: the enumerators this file names, and
    [IMGFMT_other] for every other enumerator, by its numeric value. *)
Inductive mp_imgfmt : Type :=
| IMGFMT_NONE
| IMGFMT_420P
| IMGFMT_NV12
| IMGFMT_UYVY
| IMGFMT_YUYV
| IMGFMT_RGBA
| IMGFMT_BGRA
| IMGFMT_VAAPI
| IMGFMT_other (code : Z).

#[global] Instance mp_imgfmt_eq_dec : EqDecision mp_imgfmt.
Proof. solve_decision. Defined.

(** [struct fmtentry]. *)
Record fmtentry : Type := Fmtentry { va : Z; mp : mp_imgfmt }.

(** libva's [VAImageFormat]; only [fourcc] is inspected by this file, the
    other fields travel with the descriptor. *)
Record VAImageFormat : Type := {
  fourcc : Z;
  byte_order : Z;
  bits_per_pixel : Z
}.

(** libva's [VAImage].  [pitches] and [offsets] are arrays of three, and
    libva keeps [num_planes] at three or less; the plane loop of
    [va_image_map] would read past them otherwise, which this model does
    not describe. *)
Record VAImage : Type := {
  image_id : Z;
  format : VAImageFormat;
  buf : Z;
  width : Z;
  height : Z;
  num_planes : Z;
  pitches : list Z;
  offsets : list Z
}.

(** [struct va_image_formats]; [num] is the length of [entries]. *)
Record va_image_formats : Type := { entries : list VAImageFormat }.

Definition num (formats : va_image_formats) : Z :=
  Z.of_nat (length (entries formats)).

(** [struct mp_vaapi_ctx] as [va_initialize] hands it out: [image_formats]
    is never NULL in a context that was returned (line 127). *)
Record mp_vaapi_ctx : Type := {
  ctx_display : Z;
  image_formats : va_image_formats
}.

(** [struct mp_image]: the fields this file touches.  [planes] and [stride]
    are arrays of four (MP_MAX_PLANES); pointers are addresses, NULL is 0. *)
Record mp_image : Type := {
  imgfmt : mp_imgfmt;
  mpi_w : Z;
  mpi_h : Z;
  planes : list Z;
  stride : list Z
}.

(** [va_surface_priv_t]. *)
Record va_surface_priv : Type := {
  ctx : mp_vaapi_ctx;
  display : Z;
  image : VAImage;
  is_derived : bool
}.

(** [struct va_surface]. *)
Record va_surface : Type := {
  surface_id : Z;
  w : Z;
  h : Z;
  rt_format : Z;
  p : va_surface_priv
}.

(** ** Calls that leave this file *)

Inductive va_call : Type :=
| vaInitialize (dpy : Z)
| vaTerminate (dpy : Z)
| vaMaxNumImageFormats (dpy : Z)
| vaQueryImageFormats (dpy : Z)
| vaCreateSurfaces (dpy width height fmt num_surfaces : Z)
| vaDestroySurfaces (dpy surface num_surfaces : Z)
| vaDeriveImage (dpy surface : Z)
| vaCreateImage (dpy : Z) (fmt : VAImageFormat) (width height : Z)
| vaDestroyImage (dpy img : Z)
| vaMapBuffer (dpy buf_id : Z)
| vaUnmapBuffer (dpy buf_id : Z)
| vaPutImage2 (dpy surface img src_x src_y src_w src_h
               dst_x dst_y dst_w dst_h : Z)
| vaGetImage (dpy surface x y width height img : Z)
| vaSyncSurface (dpy surface : Z)
| mp_image_alloc (fmt : mp_imgfmt) (width height : Z)
| mp_image_pool_get (pool : Z) (fmt : mp_imgfmt) (width height : Z)
| mp_image_copy (dst src : mp_image).

Definition call_log : Type := list va_call.

(** What the outside world answers.  Every answer may depend on the calls
    made so far and on the call itself; out-parameters that the callee
    fills are given as the new content ([drv_image] also sees the old
    content of the [VAImage] it overwrites). *)
Record va_driver : Type := {
  drv_status : call_log -> va_call -> Z;
  drv_count : call_log -> va_call -> Z;
  drv_formats : call_log -> va_call -> list VAImageFormat;
  drv_surface : call_log -> va_call -> Z;
  drv_image : call_log -> va_call -> VAImage -> VAImage;
  drv_data : call_log -> va_call -> Z;
  drv_frame : call_log -> va_call -> list Z * list Z
}.

(** ** State monad over the call log *)

Definition St (A : Type) : Type := call_log -> A * call_log.

Definition ret {A : Type} (a : A) : St A := fun log => (a, log).

Definition bind {A B : Type} (m : St A) (f : A -> St B) : St B :=
  fun log => let (a, log') := m log in f a log'.

Declare Scope st_scope.
Delimit Scope st_scope with st.
Notation "'let*' x ':=' m 'in' k" := (bind m (fun x => k))
  (at level 10, x as pattern, m at level 100, k at level 200) : st_scope.
Notation "m ;;; k" := (bind m (fun _ => k))
  (at level 100, right associativity) : st_scope.
Open Scope st_scope.

(** ** Format translation (lines 48-84) *)

Definition va_to_imgfmt : list fmtentry :=
  [ Fmtentry VA_FOURCC_YV12 IMGFMT_420P;
    Fmtentry VA_FOURCC_I420 IMGFMT_420P;
    Fmtentry VA_FOURCC_IYUV IMGFMT_420P;
    Fmtentry VA_FOURCC_NV12 IMGFMT_NV12;
    Fmtentry VA_FOURCC_UYVY IMGFMT_UYVY;
    Fmtentry VA_FOURCC_YUY2 IMGFMT_YUYV;
    Fmtentry VA_FOURCC_RGBA IMGFMT_RGBA;
    Fmtentry VA_FOURCC_RGBX IMGFMT_RGBA;
    Fmtentry VA_FOURCC_BGRA IMGFMT_BGRA;
    Fmtentry VA_FOURCC_BGRX IMGFMT_BGRA;
    Fmtentry 0 IMGFMT_NONE ].

(** The [for] loop of [va_fourcc_to_imgfmt], from [entry] on; it stops at
    the entry whose [va] is 0. *)
Fixpoint fourcc_to_imgfmt_loop (entry : list fmtentry) (fcc : Z) : mp_imgfmt :=
  match entry with
  | [] => IMGFMT_NONE
  | e :: next =>
      if va e =? 0 then IMGFMT_NONE
      else if va e =? fcc then mp e
      else fourcc_to_imgfmt_loop next fcc
  end.

Definition va_fourcc_to_imgfmt (fcc : Z) : mp_imgfmt :=
  fourcc_to_imgfmt_loop va_to_imgfmt fcc.

(** The [for] loop of [va_fourcc_from_imgfmt]. *)
Fixpoint fourcc_from_imgfmt_loop (entry : list fmtentry) (fmt : mp_imgfmt) : Z :=
  match entry with
  | [] => 0
  | e :: next =>
      if va e =? 0 then 0
      else if bool_decide (mp e = fmt) then va e
      else fourcc_from_imgfmt_loop next fmt
  end.

Definition va_fourcc_from_imgfmt (fmt : mp_imgfmt) : Z :=
  fourcc_from_imgfmt_loop va_to_imgfmt fmt.

(** [va_image_format_from_imgfmt] (lines 149-160).  The table value is held
    in a [const int] and compared with the [uint32_t] field of each entry. *)
Definition va_image_format_from_imgfmt
    (formats : option va_image_formats) (fmt : mp_imgfmt) : option VAImageFormat :=
  let fcc := to_int (va_fourcc_from_imgfmt fmt) in
  match formats with
  | None => None
  | Some fs =>
      if (num fs =? 0) || (fcc =? 0) then None
      else List.find (fun e => fourcc e =? to_uint32 fcc) (entries fs)
  end.

(** ** Field updates *)

Definition set_image (surface : va_surface) (img : VAImage) : va_surface :=
  {| surface_id := surface_id surface; w := w surface; h := h surface;
     rt_format := rt_format surface;
     p := {| ctx := ctx (p surface); display := display (p surface);
             image := img; is_derived := is_derived (p surface) |} |}.

Definition set_is_derived (surface : va_surface) (b : bool) : va_surface :=
  {| surface_id := surface_id surface; w := w surface; h := h surface;
     rt_format := rt_format surface;
     p := {| ctx := ctx (p surface); display := display (p surface);
             image := image (p surface); is_derived := b |} |}.

Definition with_image_id (img : VAImage) (i : Z) : VAImage :=
  {| image_id := i; format := format img; buf := buf img;
     width := width img; height := height img;
     num_planes := num_planes img; pitches := pitches img;
     offsets := offsets img |}.

Definition set_image_id (surface : va_surface) (i : Z) : va_surface :=
  set_image surface (with_image_id (image (p surface)) i).

(** [check_va_status] (lines 27-34), without the message. *)
Definition check_va_status (status : Z) : bool := status =? VA_STATUS_SUCCESS.

(** ** The generic image helpers *)

(** Modelled from the spec: [mp_image.c] is not part of this file.  The
    generic image is "a reference-counted image handle with pixel-format
    tag, dimensions, per-plane pointer+stride"; [mp_image_setfmt] sets the
    tag and [mp_image_set_size] the dimensions. *)
Definition mp_image_setfmt (mpi : mp_image) (fmt : mp_imgfmt) : mp_image :=
  {| imgfmt := fmt; mpi_w := mpi_w mpi; mpi_h := mpi_h mpi;
     planes := planes mpi; stride := stride mpi |}.

Definition mp_image_set_size (mpi : mp_image) (width height : Z) : mp_image :=
  {| imgfmt := imgfmt mpi; mpi_w := width; mpi_h := height;
     planes := planes mpi; stride := stride mpi |}.

(** [(struct mp_image) {0}]. *)
Definition mp_image_zero : mp_image :=
  {| imgfmt := IMGFMT_NONE; mpi_w := 0; mpi_h := 0;
     planes := [0; 0; 0; 0]; stride := [0; 0; 0; 0] |}.

(** The body of the plane loop of [va_image_map] (lines 311-312). *)
Definition set_plane (data : Z) (img : VAImage) (mpi : mp_image) (i : nat) : mp_image :=
  {| imgfmt := imgfmt mpi; mpi_w := mpi_w mpi; mpi_h := mpi_h mpi;
     planes := <[i := data + offsets img !!! i]> (planes mpi);
     stride := <[i := to_int (pitches img !!! i)]> (stride mpi) |}.

(** [MPSWAP(unsigned int, mpi->stride[1], mpi->stride[2])] followed by
    [MPSWAP(uint8_t *, mpi->planes[1], mpi->planes[2])] (lines 316-317);
    the stride passes through an [unsigned int] temporary. *)
Definition swap_chroma (mpi : mp_image) : mp_image :=
  let stride_tmp := to_uint32 (stride mpi !!! 2%nat) in
  let planes_tmp := planes mpi !!! 2%nat in
  {| imgfmt := imgfmt mpi; mpi_w := mpi_w mpi; mpi_h := mpi_h mpi;
     planes := <[1%nat := planes_tmp]> (<[2%nat := planes mpi !!! 1%nat]> (planes mpi));
     stride := <[1%nat := to_int stride_tmp]>
                 (<[2%nat := stride mpi !!! 1%nat]> (stride mpi)) |}.

(** What a download hands back: the destination image, NULL, or the
    failed [assert] of line 395. *)
Inductive download_result : Type :=
| Image (mpi : mp_image)
| Null
| AssertFailed.

Section Driver.

Variable drv : va_driver.

(** ** Performing a call *)

(** Appends the call to the log and yields the history before it. *)
Definition emit (c : va_call) : St call_log :=
  fun log => (log, log ++ [c]).

Definition status_of (c : va_call) : St Z :=
  let* hist := emit c in ret (drv_status drv hist c).

Definition image_of (c : va_call) (old : VAImage) : St (Z * VAImage) :=
  let* hist := emit c in ret (drv_status drv hist c, drv_image drv hist c old).

(** Modelled from the spec: [mp_image_alloc] and [mp_image_pool_get] are
    not part of this file.  "If a pool is supplied, the destination image is
    drawn from it (enabling reuse); otherwise a fresh image is allocated":
    the call yields an image of the requested format and size, whose plane
    pointers and strides the allocator chooses.  Allocation is taken to
    succeed. *)
Definition frame_of (c : va_call) (fmt : mp_imgfmt) (width height : Z) : St mp_image :=
  let* hist := emit c in
  ret {| imgfmt := fmt; mpi_w := width; mpi_h := height;
         planes := fst (drv_frame drv hist c);
         stride := snd (drv_frame drv hist c) |}.

(** ** Capability registry (lines 91-137) *)

(** [va_get_formats]; the result is what ends up in [ctx->image_formats]
    (NULL when the function returned early).  The driver fills the array and
    sets [num]; the registry keeps exactly the entries it reported. *)
Definition va_get_formats (dpy : Z) : St (option va_image_formats) :=
  let* hist0 := emit (vaMaxNumImageFormats dpy) in
  let max_num := drv_count drv hist0 (vaMaxNumImageFormats dpy) in
  let* hist := emit (vaQueryImageFormats dpy) in
  let status := drv_status drv hist (vaQueryImageFormats dpy) in
  let reported := drv_formats drv hist (vaQueryImageFormats dpy) in
  if negb (check_va_status status) then ret None
  else ret (Some {| entries := reported |}).

(** [va_initialize]. *)
Definition va_initialize (dpy : Z) : St (option mp_vaapi_ctx) :=
  let* status := status_of (vaInitialize dpy) in
  if negb (check_va_status status) then
    (* error: res is still NULL *)
    ret None
  else
    let* formats := va_get_formats dpy in
    match formats with
    | None =>
        (* error: res is set *)
        (if negb (dpy =? 0) then status_of (vaTerminate dpy) ;;; ret tt
         else ret tt) ;;;
        ret None
    | Some fs => ret (Some {| ctx_display := dpy; image_formats := fs |})
    end.

(** ** Surfaces (lines 162-261) *)

(** [va_surface_destroy], for a non-NULL surface. *)
Definition va_surface_destroy (surface : va_surface) : St unit :=
  if negb (surface_id surface =? VA_INVALID_ID) then
    let p0 := p surface in
    (if negb (image_id (image p0) =? VA_INVALID_ID) then
       status_of (vaDestroyImage (display p0) (image_id (image p0))) ;;; ret tt
     else ret tt) ;;;
    status_of (vaDestroySurfaces (display p0) (surface_id surface) 1) ;;;
    ret tt
  else ret tt.

(** [talloc_zero(surface, va_surface_priv_t)] followed by lines 206-208. *)
Definition fresh_priv (c : mp_vaapi_ctx) : va_surface_priv :=
  {| ctx := c; display := ctx_display c;
     image := {| image_id := VA_INVALID_ID;
                 format := {| fourcc := 0; byte_order := 0; bits_per_pixel := 0 |};
                 buf := VA_INVALID_ID; width := 0; height := 0;
                 num_planes := 0; pitches := [0; 0; 0]; offsets := [0; 0; 0] |};
     is_derived := false |}.

(** [alloc_surface]; the result is the surface that the returned
    [mp_image] wraps. *)
Definition alloc_surface (c : mp_vaapi_ctx) (rt width height : Z)
    : St (option va_surface) :=
  let call := vaCreateSurfaces (ctx_display c) width height rt 1 in
  let* hist := emit call in
  if negb (check_va_status (drv_status drv hist call)) then ret None
  else
    ret (Some {| surface_id := drv_surface drv hist call;
                 w := width; h := height; rt_format := rt;
                 p := fresh_priv c |}).

(** [va_surface_image_destroy], for a non-NULL surface. *)
Definition va_surface_image_destroy (surface : va_surface) : St va_surface :=
  if image_id (image (p surface)) =? VA_INVALID_ID then ret surface
  else
    status_of (vaDestroyImage (display (p surface))
                 (image_id (image (p surface)))) ;;;
    ret (set_is_derived (set_image_id surface VA_INVALID_ID) false).

(** [va_surface_image_alloc], for a non-NULL surface: the returned image
    (NULL as [None]) and the surface as the call leaves it. *)
Definition va_surface_image_alloc (surface : va_surface)
    (fmt : option VAImageFormat) : St (option VAImage * va_surface) :=
  match fmt with
  | None => ret (None, surface)
  | Some fmt =>
      if negb (image_id (image (p surface)) =? VA_INVALID_ID)
         && (fourcc (format (image (p surface))) =? fourcc fmt)
      then ret (Some (image (p surface)), surface)
      else
        let* surface := va_surface_image_destroy surface in
        let dpy := display (p surface) in
        let* (status, img) :=
          image_of (vaDeriveImage dpy (surface_id surface)) (image (p surface)) in
        let surface := set_image surface img in
        let* (status, surface) :=
          if status =? VA_STATUS_SUCCESS then
            if (fourcc (format img) =? fourcc fmt)
               && (width img =? w surface) && (height img =? h surface)
            then ret (status, set_is_derived surface true)
            else
              status_of (vaDestroyImage dpy (image_id img)) ;;;
              ret (VA_STATUS_ERROR_OPERATION_FAILED, surface)
          else ret (status, surface) in
        if negb (status =? VA_STATUS_SUCCESS) then
          let surface := set_image_id surface VA_INVALID_ID in
          let* (status, img) :=
            image_of (vaCreateImage dpy fmt (w surface) (h surface))
                     (image (p surface)) in
          let surface := set_image surface img in
          if negb (check_va_status status) then
            ret (None, set_image_id surface VA_INVALID_ID)
          else ret (Some (image (p surface)), surface)
        else ret (Some (image (p surface)), surface)
  end.

(** ** Transfer engine (lines 296-432) *)

(** [va_image_map]: [None] is [false]; on [true] the image written to
    [*mpi]. *)
Definition va_image_map (c : mp_vaapi_ctx) (img : VAImage) : St (option mp_image) :=
  let fmt := va_fourcc_to_imgfmt (fourcc (format img)) in
  if bool_decide (fmt = IMGFMT_NONE) then ret None
  else
    let call := vaMapBuffer (ctx_display c) (buf img) in
    let* hist := emit call in
    let data := drv_data drv hist call in
    if negb (check_va_status (drv_status drv hist call)) then ret None
    else
      let mpi := mp_image_setfmt mp_image_zero fmt in
      let mpi := mp_image_set_size mpi (width img) (height img) in
      let mpi := fold_left (set_plane data img)
                   (seq 0 (Z.to_nat (num_planes img))) mpi in
      let mpi := if fourcc (format img) =? VA_FOURCC_YV12
                 then swap_chroma mpi else mpi in
      ret (Some mpi).

(** [va_image_unmap]. *)
Definition va_image_unmap (c : mp_vaapi_ctx) (img : VAImage) : St bool :=
  let* status := status_of (vaUnmapBuffer (ctx_display c) (buf img)) in
  ret (check_va_status status).

(** [va_surface_upload]: the result and the surface as the call leaves it. *)
Definition va_surface_upload (surface : va_surface) (mpi : mp_image)
    : St (bool * va_surface) :=
  let fmt := va_image_format_from_imgfmt
               (Some (image_formats (ctx (p surface)))) (imgfmt mpi) in
  match fmt with
  | None => ret (false, surface)
  | Some _ =>
      let* (allocated, surface) := va_surface_image_alloc surface fmt in
      match allocated with
      | None => ret (false, surface)
      | Some _ =>
          let p0 := p surface in
          let* mapped := va_image_map (ctx p0) (image p0) in
          match mapped with
          | None => ret (false, surface)
          | Some img =>
              emit (mp_image_copy img mpi) ;;;
              va_image_unmap (ctx p0) (image p0) ;;;
              if negb (is_derived p0) then
                let* status :=
                  status_of (vaPutImage2 (display p0) (surface_id surface)
                               (image_id (image p0))
                               0 0 (to_uint32 (mpi_w mpi)) (to_uint32 (mpi_h mpi))
                               0 0 (to_uint32 (mpi_w mpi)) (to_uint32 (mpi_h mpi))) in
                if negb (check_va_status status) then ret (false, surface)
                else ret (true, surface)
              else ret (true, surface)
          end
      end
  end.

(** [try_download].  [pool] is [None] for a NULL pool. *)
Definition try_download (surface : va_surface) (fmt : VAImageFormat)
    (pool : option Z) : St (download_result * va_surface) :=
  let fmt_mp := va_fourcc_to_imgfmt (fourcc fmt) in
  if bool_decide (fmt_mp = IMGFMT_NONE) then ret (Null, surface)
  else
    let* (allocated, surface) := va_surface_image_alloc surface (Some fmt) in
    match allocated with
    | None => ret (Null, surface)
    | Some _ =>
        let p0 := p surface in
        let img := image p0 in
        let* fetched :=
          if negb (is_derived p0) then
            let* status :=
              status_of (vaGetImage (display p0) (surface_id surface) 0 0
                           (to_uint32 (w surface)) (to_uint32 (h surface))
                           (image_id img)) in
            ret (status =? VA_STATUS_SUCCESS)
          else ret true in
        if negb fetched then ret (Null, surface)
        else
          let* mapped := va_image_map (ctx p0) img in
          match mapped with
          | None => ret (Null, surface)
          | Some tmp =>
              if negb (bool_decide (imgfmt tmp = fmt_mp)) then
                ret (AssertFailed, surface)
              else
                let* dst :=
                  match pool with
                  | Some pl =>
                      frame_of (mp_image_pool_get pl fmt_mp (mpi_w tmp) (mpi_h tmp))
                               fmt_mp (mpi_w tmp) (mpi_h tmp)
                  | None =>
                      frame_of (mp_image_alloc fmt_mp (mpi_w tmp) (mpi_h tmp))
                               fmt_mp (mpi_w tmp) (mpi_h tmp)
                  end in
                emit (mp_image_copy dst tmp) ;;;
                va_image_unmap (ctx p0) img ;;;
                ret (Image dst, surface)
          end
    end.

(** The [for] loop of [va_surface_download] (lines 423-428), from entry
    [formats] on. *)
Fixpoint download_loop (formats : list VAImageFormat) (surface : va_surface)
    (pool : option Z) : St (download_result * va_surface) :=
  match formats with
  | [] => ret (Null, surface)
  | fmt :: rest =>
      let* (mpi, surface) := try_download surface fmt pool in
      match mpi with
      | Null => download_loop rest surface pool
      | _ => ret (mpi, surface)
      end
  end.

(** [va_surface_download].  The fast path passes [&image->format], a pointer
    into the surface's own image: the comparison of line 235 then compares
    the field with itself, so the view is reused before anything is
    written. *)
Definition va_surface_download (surface : va_surface) (pool : option Z)
    : St (download_result * va_surface) :=
  let c := ctx (p surface) in
  let* status := status_of (vaSyncSurface (display (p surface)) (surface_id surface)) in
  if negb (check_va_status status) then ret (Null, surface)
  else
    let img := image (p surface) in
    let* (mpi, surface) :=
      if negb (image_id img =? VA_INVALID_ID)
      then try_download surface (format img) pool
      else ret (Null, surface) in
    match mpi with
    | Null => download_loop (entries (image_formats c)) surface pool
    | _ => ret (mpi, surface)
    end.

End Driver.

(** * The remaining entry points *)

(** [struct pool_alloc_ctx]. *)
Record pool_alloc_ctx : Type := {
  vaapi : mp_vaapi_ctx;
  pool_rt_format : Z
}.

(** Modelled from the spec: [mp_image_new_custom_ref] is not part of this
    file.  The image abstraction offers "a custom-destructor hook used to
    bind a Surface's lifetime to the image's reference count": the new
    reference carries the fields of the image it is made from. *)
Definition mp_image_new_custom_ref (img : mp_image) : mp_image := img.

(** The image that [alloc_surface] wraps around the surface it has placed
    at address [addr] (lines 210-215). *)
Definition va_surface_mp_image (addr : Z) (surface : va_surface) : mp_image :=
  let img := mp_image_zero in
  let img := mp_image_setfmt img IMGFMT_VAAPI in
  let img := mp_image_set_size img (w surface) (h surface) in
  let img :=
    {| imgfmt := imgfmt img; mpi_w := mpi_w img; mpi_h := mpi_h img;
       planes := <[3%nat := surface_id surface]> (<[0%nat := addr]> (planes img));
       stride := stride img |} in
  mp_image_new_custom_ref img.

(** [va_surface_id_in_mp_image] (lines 279-283); NULL is [None].  The
    pointer of plane 3 is cut down to a [VASurfaceID]. *)
Definition va_surface_id_in_mp_image (mpi : option mp_image) : Z :=
  match mpi with
  | Some m =>
      if bool_decide (imgfmt m = IMGFMT_VAAPI) then to_uint32 (planes m !!! 3%nat)
      else VA_INVALID_ID
  | None => VA_INVALID_ID
  end.

(** [va_surface_in_mp_image] (lines 285-289): the address of the surface,
    0 for NULL. *)
Definition va_surface_in_mp_image (mpi : option mp_image) : Z :=
  match mpi with
  | Some m =>
      if bool_decide (imgfmt m = IMGFMT_VAAPI) then planes m !!! 0%nat else 0
  | None => 0
  end.

(** [va_surface_id] (lines 291-294). *)
Definition va_surface_id (surface : option va_surface) : Z :=
  match surface with
  | Some s => surface_id s
  | None => VA_INVALID_ID
  end.

Section Callers.

Variable drv : va_driver.

(** [va_destroy] (lines 140-147); NULL is [None]. *)
Definition va_destroy (c : option mp_vaapi_ctx) : St unit :=
  match c with
  | Some c =>
      if negb (ctx_display c =? 0)
      then status_of drv (vaTerminate (ctx_display c)) ;;; ret tt
      else ret tt
  | None => ret tt
  end.

(** [release_va_surface] (lines 182-186). *)
Definition release_va_surface (arg : va_surface) : St unit :=
  va_surface_destroy drv arg.

(** [alloc_pool] (lines 439-446). *)
Definition alloc_pool (pctx : pool_alloc_ctx) (fmt : mp_imgfmt)
    (width height : Z) : St (option va_surface) :=
  if negb (bool_decide (fmt = IMGFMT_VAAPI)) then ret None
  else alloc_surface drv (vaapi pctx) (pool_rt_format pctx) width height.

(** [va_surface_image_alloc_imgfmt] (lines 265-277).  [pointee] is the
    surface that plane 0 of [img] points to when it points to one; it is
    handed back as the call leaves it. *)
Definition va_surface_image_alloc_imgfmt (img : option mp_image)
    (pointee : va_surface) (fmt : mp_imgfmt) : St (Z * va_surface) :=
  if va_surface_in_mp_image img =? 0 then ret (-1, pointee)
  else
    let found :=
      va_image_format_from_imgfmt
        (Some (image_formats (ctx (p pointee)))) fmt in
    match found with
    | None => ret (-1, pointee)
    | Some _ =>
        let* (allocated, surface) := va_surface_image_alloc drv pointee found in
        match allocated with
        | None => ret (-1, surface)
        | Some _ => ret (0, surface)
        end
    end.

(** [va_surface_upload_image] (lines 360-368), with [pointee] as above. *)
Definition va_surface_upload_image (va_dst : option mp_image)
    (pointee : va_surface) (sw_src : mp_image) : St (Z * va_surface) :=
  if va_surface_in_mp_image va_dst =? 0 then ret (-1, pointee)
  else
    let* (ok, surface) := va_surface_upload drv pointee sw_src in
    if negb ok then ret (-1, surface) else ret (0, surface).

End Callers.

(** * Vocabulary of the statements *)

(** [fmt] has a native counterpart among the advertised formats. *)
Definition advertised_counterpart (fs : va_image_formats) (fmt : mp_imgfmt) : Prop :=
  exists e, In e (entries fs) /\ va_fourcc_to_imgfmt (fourcc e) = fmt.

(** The test of lines 234-235. *)
Definition view_cached (surface : va_surface) (fmt : VAImageFormat) : bool :=
  negb (image_id (image (p surface)) =? VA_INVALID_ID)
  && (fourcc (format (image (p surface))) =? fourcc fmt).

(** The test of lines 240-243 on what [vaDeriveImage] answered. *)
Definition derive_accepted (surface : va_surface) (fmt : VAImageFormat)
    (status : Z) (derived : VAImage) : bool :=
  (status =? VA_STATUS_SUCCESS)
  && ((fourcc (format derived) =? fourcc fmt)
      && (width derived =? w surface) && (height derived =? h surface)).

(** The calls made up to the fallback when the derived view is not taken. *)
Definition derive_rejected_log (log0 : call_log) (dpy sid status : Z)
    (derived : VAImage) : call_log :=
  (log0 ++ [vaDeriveImage dpy sid])
    ++ (if status =? VA_STATUS_SUCCESS
        then [vaDestroyImage dpy (image_id derived)] else []).

(** The flag may be set only on a surface that holds a view. *)
Definition surface_inv (surface : va_surface) : Prop :=
  is_derived (p surface) = true ->
  image_id (image (p surface)) <> VA_INVALID_ID.

(** What libva promises of [vaDeriveImage]: on success the image it fills
    in has a valid id. *)
Definition derive_yields_view (drv : va_driver) : Prop :=
  forall hist dpy sid old,
    drv_status drv hist (vaDeriveImage dpy sid) = VA_STATUS_SUCCESS ->
    image_id (drv_image drv hist (vaDeriveImage dpy sid) old) <> VA_INVALID_ID.

(** The driver's layout of plane [i]: pitch and offset for the planes the
    image has, zero (the initial value) for the others. *)
Definition layout_stride (img : VAImage) (i : nat) : Z :=
  if (i <? Z.to_nat (num_planes img))%nat then to_int (pitches img !!! i) else 0.

Definition layout_plane (data : Z) (img : VAImage) (i : nat) : Z :=
  if (i <? Z.to_nat (num_planes img))%nat then data + offsets img !!! i else 0.

(** The allocation call of lines 396-397. *)
Definition dst_call (pool : option Z) (fmt : mp_imgfmt) (width height : Z) : va_call :=
  match pool with
  | Some pl => mp_image_pool_get pl fmt width height
  | None => mp_image_alloc fmt width height
  end.

Definition is_vaGetImage (c : va_call) : bool :=
  match c with vaGetImage _ _ _ _ _ _ _ => true | _ => false end.

(** Every format of the list was attempted in turn, from the given surface
    and log on, and each attempt came back with NULL. *)
Inductive all_failed (drv : va_driver) (pool : option Z)
  : list VAImageFormat -> va_surface -> call_log -> va_surface -> call_log -> Prop :=
| all_failed_nil surface log :
    all_failed drv pool [] surface log surface log
| all_failed_cons fmt rest surface log s1 log1 s' log' :
    try_download drv surface fmt pool log = (Null, s1, log1) ->
    all_failed drv pool rest s1 log1 s' log' ->
    all_failed drv pool (fmt :: rest) surface log s' log'.

Definition is_vaTerminate (c : va_call) : bool :=
  match c with vaTerminate _ => true | _ => false end.

Definition is_vaCreateSurfaces (c : va_call) : bool :=
  match c with vaCreateSurfaces _ _ _ _ _ => true | _ => false end.

(** What no operation on a surface changes: its handle, its size, its
    run-time format, its context and its display. *)
Definition same_frame (s s' : va_surface) : Prop :=
  surface_id s' = surface_id s /\ w s' = w s /\ h s' = h s /\
  rt_format s' = rt_format s /\ ctx (p s') = ctx (p s) /\
  display (p s') = display (p s).

(** A derived view is a live view of exactly the surface's size. *)
Definition derived_view_fits (s : va_surface) : Prop :=
  is_derived (p s) = true ->
  image_id (image (p s)) <> VA_INVALID_ID /\
  width (image (p s)) = w s /\ height (image (p s)) = h s.

(** The calls that create or destroy a view. *)
Definition is_view_call (c : va_call) : bool :=
  match c with
  | vaDeriveImage _ _ | vaCreateImage _ _ _ _ | vaDestroyImage _ _ => true
  | _ => false
  end.

(** The calls that allocate a destination image. *)
Definition is_dst_alloc (c : va_call) : bool :=
  match c with
  | mp_image_alloc _ _ _ | mp_image_pool_get _ _ _ _ => true
  | _ => false
  end.

(** The allocation that produced a returned image, if one was returned. *)
Definition dst_allocs (pool : option Z) (r : download_result) : list va_call :=
  match r with
  | Image dst => [dst_call pool (imgfmt dst) (mpi_w dst) (mpi_h dst)]
  | _ => []
  end.

(** * Sample data *)

Definition image_format (fcc : Z) : VAImageFormat :=
  {| fourcc := fcc; byte_order := 1; bits_per_pixel := 12 |}.

Definition registry_i420 : va_image_formats :=
  {| entries := [image_format VA_FOURCC_I420] |}.

Definition registry_nv12_yv12 : va_image_formats :=
  {| entries := [image_format VA_FOURCC_NV12; image_format VA_FOURCC_YV12] |}.

Definition sample_image (id fcc width height : Z) : VAImage :=
  {| image_id := id; format := image_format fcc; buf := 9;
     width := width; height := height; num_planes := 3;
     pitches := [64; 32; 32]; offsets := [0; 2048; 2560] |}.

(** A driver that fails exactly the calls selected by [fails], reports
    [formats], derives [derived] and creates images of the requested format
    and size. *)
Definition sample_driver (fails : va_call -> bool)
    (formats : list VAImageFormat) (derived : VAImage) : va_driver :=
  {| drv_status := fun _ c => if fails c then 1 else VA_STATUS_SUCCESS;
     drv_count := fun _ _ => 16;
     drv_formats := fun _ _ => formats;
     drv_surface := fun _ _ => 7;
     drv_image := fun _ c old =>
       match c with
       | vaDeriveImage _ _ => derived
       | vaCreateImage _ fmt width height =>
           sample_image 4 (fourcc fmt) width height
       | _ => old
       end;
     drv_data := fun _ _ => 4096;
     drv_frame := fun _ _ => ([8192; 12288; 16384; 0], [64; 32; 32; 0]) |}.

Definition never (c : va_call) : bool := false.

Definition is_vaQueryImageFormats (c : va_call) : bool :=
  match c with vaQueryImageFormats _ => true | _ => false end.

Definition is_vaDeriveImage (c : va_call) : bool :=
  match c with vaDeriveImage _ _ => true | _ => false end.

Definition is_vaDestroyImage (c : va_call) : bool :=
  match c with vaDestroyImage _ _ => true | _ => false end.

Definition is_vaPutImage2 (c : va_call) : bool :=
  match c with vaPutImage2 _ _ _ _ _ _ _ _ _ _ _ => true | _ => false end.

Definition sample_ctx : mp_vaapi_ctx :=
  {| ctx_display := 1; image_formats := registry_nv12_yv12 |}.

(** A surface of 64x32 with the given cached view. *)
Definition sample_surface (img : VAImage) (derived : bool) : va_surface :=
  {| surface_id := 7; w := 64; h := 32; rt_format := 1;
     p := {| ctx := sample_ctx; display := 1; image := img;
             is_derived := derived |} |}.

Definition nv12_frame : mp_image :=
  {| imgfmt := IMGFMT_NV12; mpi_w := 64; mpi_h := 32;
     planes := [65536; 67584; 0; 0]; stride := [64; 64; 0; 0] |}.

Definition is_vaPutImage2_or_vaDeriveImage (c : va_call) : bool :=
  is_vaPutImage2 c || is_vaDeriveImage c.

Definition nv12_view : mp_image :=
  {| imgfmt := IMGFMT_NV12; mpi_w := 64; mpi_h := 32;
     planes := [4096; 6144; 6656; 0]; stride := [64; 32; 32; 0] |}.

(** A driver that refuses to derive and cannot create RGBA images, and a
    surface without view whose registry lists an unknown fourcc, RGBA, NV12
    and YV12. *)
Definition fails_search (c : va_call) : bool :=
  match c with
  | vaDeriveImage _ _ => true
  | vaCreateImage _ fmt _ _ => fourcc fmt =? VA_FOURCC_RGBA
  | _ => false
  end.

Definition search_ctx : mp_vaapi_ctx :=
  {| ctx_display := 1;
     image_formats :=
       {| entries := [image_format 77; image_format VA_FOURCC_RGBA;
                      image_format VA_FOURCC_NV12; image_format VA_FOURCC_YV12] |} |}.

Definition search_surface (img : VAImage) : va_surface :=
  {| surface_id := 7; w := 64; h := 32; rt_format := 1;
     p := {| ctx := search_ctx; display := 1; image := img;
             is_derived := false |} |}.

Definition nv12_dst : mp_image :=
  {| imgfmt := IMGFMT_NV12; mpi_w := 64; mpi_h := 32;
     planes := [8192; 12288; 16384; 0]; stride := [64; 32; 32; 0] |}.

(** * Properties *)

(** Unfolds the monad. *)
Ltac st_unfold := unfold status_of, image_of, frame_of, emit, bind, ret in *.

(** Splits the goal along every branch the code takes. *)
Ltac split_paths :=
  repeat match goal with
    | |- context [if ?b then _ else _] => destruct b
    | |- context [match ?x with _ => _ end] => destruct x
    end.

(** Exhibits the calls that follow a known prefix of the log. *)
Ltac give_rest :=
  first
    [ exists []; split; [reflexivity | cbn [app]; rewrite ?app_nil_r; reflexivity]
    | eexists; split; [| rewrite <- ?app_assoc; cbn [app]; reflexivity];
      reflexivity ].

(** ** Integer conversions *)

Lemma to_int_small (z : Z) : 0 <= z < 2 ^ 31 -> to_int z = z.
Proof.
  intros Hz. unfold to_int.
  rewrite Z.mod_small by lia.
  destruct (z <? 2 ^ 31) eqn:E; [reflexivity | apply Z.ltb_ge in E; lia].
Qed.

Lemma to_uint32_small (z : Z) : 0 <= z < 2 ^ 32 -> to_uint32 z = z.
Proof. intros Hz. unfold to_uint32. apply Z.mod_small. lia. Qed.

Lemma to_int_range (z : Z) : - 2 ^ 31 <= to_int z < 2 ^ 31.
Proof.
  unfold to_int.
  pose proof (Z.mod_pos_bound z (2 ^ 32) ltac:(lia)) as Hb.
  destruct (z mod 2 ^ 32 <? 2 ^ 31) eqn:E;
    [apply Z.ltb_lt in E | apply Z.ltb_ge in E]; lia.
Qed.

(** An [int] survives the trip through an [unsigned int] temporary. *)
Lemma to_int_to_uint32 (z : Z) : to_int (to_uint32 z) = to_int z.
Proof. unfold to_int, to_uint32. rewrite Z.mod_mod by lia. reflexivity. Qed.

Lemma to_int_idem (z : Z) : to_int (to_int z) = to_int z.
Proof.
  unfold to_int at 2.
  destruct (z mod 2 ^ 32 <? 2 ^ 31) eqn:E.
  - unfold to_int. rewrite Z.mod_mod by lia. rewrite E. reflexivity.
  - unfold to_int.
    replace ((z mod 2 ^ 32 - 2 ^ 32) mod 2 ^ 32) with (z mod 2 ^ 32).
    + rewrite E. reflexivity.
    + rewrite <- (Z.mod_mod z (2 ^ 32)) at 1 by lia.
      rewrite <- (Z_mod_plus_full (z mod 2 ^ 32 - 2 ^ 32) 1 (2 ^ 32)).
      f_equal. lia.
Qed.

(** ** Format translation *)

Lemma va_fourcc_from_imgfmt_bounds (fmt : mp_imgfmt) :
  0 <= va_fourcc_from_imgfmt fmt < 2 ^ 31.
Proof. destruct fmt; vm_compute; split; congruence. Qed.

(** A format that has a table entry is what its first entry translates
    back to. *)
Lemma va_fourcc_roundtrip (fmt : mp_imgfmt) :
  va_fourcc_from_imgfmt fmt <> 0 ->
  va_fourcc_to_imgfmt (va_fourcc_from_imgfmt fmt) = fmt.
Proof. destruct fmt; vm_compute; congruence. Qed.

(** The lookup is a first-match search for the one fourcc the table gives. *)
Lemma va_image_format_from_imgfmt_find (fs : va_image_formats) (fmt : mp_imgfmt) :
  va_image_format_from_imgfmt (Some fs) fmt =
  if va_fourcc_from_imgfmt fmt =? 0 then None
  else List.find (fun e => fourcc e =? va_fourcc_from_imgfmt fmt) (entries fs).
Proof.
  unfold va_image_format_from_imgfmt.
  pose proof (va_fourcc_from_imgfmt_bounds fmt) as Hb.
  rewrite (to_int_small _ Hb), to_uint32_small by lia.
  destruct (va_fourcc_from_imgfmt fmt =? 0); [now rewrite orb_true_r |].
  rewrite orb_false_r. unfold num.
  destruct (entries fs); reflexivity.
Qed.

(** C1, as stated, fails: a registry that advertises only I420 has a native
    counterpart of IMGFMT_420P, yet the lookup searches for YV12, the first
    table match, and returns none. *)
Lemma va_image_format_from_imgfmt_alias_missed :
  advertised_counterpart registry_i420 IMGFMT_420P /\
  va_image_format_from_imgfmt (Some registry_i420) IMGFMT_420P = None.
Proof.
  split; [| reflexivity].
  exists (image_format VA_FOURCC_I420). split; [left |]; reflexivity.
Qed.

(** C1, amended: the descriptor lookup returns a descriptor exactly when the
    first table match for the generic format exists and the registry
    advertises that very native identifier; a format with no advertised
    counterpart at all yields none. *)
Theorem va_image_format_from_imgfmt_first_match
    (fs : va_image_formats) (fmt : mp_imgfmt) :
  (va_image_format_from_imgfmt (Some fs) fmt <> None <->
   va_fourcc_from_imgfmt fmt <> 0 /\
   exists e, In e (entries fs) /\ fourcc e = va_fourcc_from_imgfmt fmt) /\
  ((forall e, In e (entries fs) -> va_fourcc_to_imgfmt (fourcc e) <> fmt) ->
   va_image_format_from_imgfmt (Some fs) fmt = None).
Proof.
  rewrite va_image_format_from_imgfmt_find.
  assert (Hiff :
    (if va_fourcc_from_imgfmt fmt =? 0 then None
     else List.find (fun e => fourcc e =? va_fourcc_from_imgfmt fmt) (entries fs))
      <> None <->
    va_fourcc_from_imgfmt fmt <> 0 /\
    exists e, In e (entries fs) /\ fourcc e = va_fourcc_from_imgfmt fmt).
  { destruct (va_fourcc_from_imgfmt fmt =? 0) eqn:E0.
    - apply Z.eqb_eq in E0. split; [congruence | intros [H _]; contradiction].
    - apply Z.eqb_neq in E0. split.
      + intros Hfound.
        destruct (List.find _ (entries fs)) as [e |] eqn:Ef; [| congruence].
        apply find_some in Ef as [Hin Heq]. apply Z.eqb_eq in Heq.
        split; [assumption | exists e; split; assumption].
      + intros [_ (e & Hin & Heq)] Hnone.
        apply (find_none _ _ Hnone) in Hin. cbn in Hin.
        apply Z.eqb_neq in Hin. contradiction. }
  split; [exact Hiff |].
  intros Hnone.
  destruct (if va_fourcc_from_imgfmt fmt =? 0 then None else _) as [d |] eqn:Ed;
    [| reflexivity].
  exfalso.
  destruct (proj1 Hiff ltac:(discriminate)) as [Hnz (e & Hin & Heq)].
  apply (Hnone e Hin). rewrite Heq. apply va_fourcc_roundtrip. exact Hnz.
Qed.

Lemma va_image_format_from_imgfmt_first_match_witness :
  va_image_format_from_imgfmt (Some registry_nv12_yv12) IMGFMT_420P <> None /\
  va_image_format_from_imgfmt (Some registry_i420) IMGFMT_RGBA = None.
Proof.
  split.
  - apply (proj1 (va_image_format_from_imgfmt_first_match
                    registry_nv12_yv12 IMGFMT_420P)).
    split; [vm_compute; discriminate |].
    exists (image_format VA_FOURCC_YV12).
    split; [right; left |]; reflexivity.
  - apply (proj2 (va_image_format_from_imgfmt_first_match
                    registry_i420 IMGFMT_RGBA)).
    intros e [<- | []]. vm_compute. discriminate.
Defined.

(** ** Context creation *)

(** C2, as stated, fails: when every call succeeds and the driver reports
    zero formats, [va_initialize] returns a context, with an empty
    registry. *)
Lemma va_initialize_empty_registry :
  drv_formats (sample_driver never [] (sample_image 3 0 0 0)) []
    (vaQueryImageFormats 1) = [] /\
  fst (va_initialize (sample_driver never [] (sample_image 3 0 0 0)) 1 []) =
  Some {| ctx_display := 1; image_formats := {| entries := [] |} |}.
Proof. split; reflexivity. Qed.

(** C2, amended: context creation returns no context whenever
    [vaInitialize] or [vaQueryImageFormats] reports a non-success status;
    when both succeed it returns a context whose registry is exactly the
    reported list, whatever its length. *)
Theorem va_initialize_fails_on_status (drv : va_driver) (dpy : Z) (log : call_log) :
  let hist := (log ++ [vaInitialize dpy]) ++ [vaMaxNumImageFormats dpy] in
  let st_init := drv_status drv log (vaInitialize dpy) in
  let st_query := drv_status drv hist (vaQueryImageFormats dpy) in
  (st_init <> VA_STATUS_SUCCESS \/ st_query <> VA_STATUS_SUCCESS ->
   fst (va_initialize drv dpy log) = None) /\
  (st_init = VA_STATUS_SUCCESS -> st_query = VA_STATUS_SUCCESS ->
   fst (va_initialize drv dpy log) =
   Some {| ctx_display := dpy;
           image_formats :=
             {| entries := drv_formats drv hist (vaQueryImageFormats dpy) |} |}).
Proof.
  cbv zeta. unfold va_initialize, va_get_formats, check_va_status. st_unfold.
  destruct (drv_status drv log (vaInitialize dpy) =? VA_STATUS_SUCCESS) eqn:Ei;
    cbn [negb fst].
  - destruct (drv_status drv _ (vaQueryImageFormats dpy) =? VA_STATUS_SUCCESS)
      eqn:Eq; cbn [negb fst].
    + apply Z.eqb_eq in Ei, Eq. split; [intros [H | H]; contradiction | reflexivity].
    + apply Z.eqb_neq in Eq. split.
      * intros _. destruct (dpy =? 0); reflexivity.
      * intros _ H. contradiction.
  - apply Z.eqb_neq in Ei. split; [reflexivity | intros H; contradiction].
Qed.

Lemma va_initialize_fails_on_status_witness :
  fst (va_initialize
         (sample_driver is_vaQueryImageFormats
            [image_format VA_FOURCC_NV12] (sample_image 3 0 0 0)) 1 []) = None /\
  fst (va_initialize
         (sample_driver never [image_format VA_FOURCC_NV12]
            (sample_image 3 0 0 0)) 1 []) =
  Some {| ctx_display := 1;
          image_formats := {| entries := [image_format VA_FOURCC_NV12] |} |}.
Proof.
  split.
  - apply (proj1 (va_initialize_fails_on_status
                    (sample_driver is_vaQueryImageFormats
                       [image_format VA_FOURCC_NV12] (sample_image 3 0 0 0))
                    1 [])).
    right. vm_compute. discriminate.
  - apply (proj2 (va_initialize_fails_on_status
                    (sample_driver never [image_format VA_FOURCC_NV12]
                       (sample_image 3 0 0 0)) 1 [])); reflexivity.
Defined.

(** ** Mapped view of a surface *)

(** C3: when the surface holds a view whose fourcc is the requested one,
    [va_surface_image_alloc] returns that view, leaves the surface as it is
    and makes no call at all. *)
Theorem va_surface_image_alloc_cache_hit (drv : va_driver)
    (surface : va_surface) (fmt : VAImageFormat) (log : call_log) :
  image_id (image (p surface)) <> VA_INVALID_ID ->
  fourcc (format (image (p surface))) = fourcc fmt ->
  va_surface_image_alloc drv surface (Some fmt) log =
  (Some (image (p surface)), surface, log).
Proof.
  intros Hid Hfcc. unfold va_surface_image_alloc.
  apply Z.eqb_neq in Hid. apply Z.eqb_eq in Hfcc.
  rewrite Hid, Hfcc. reflexivity.
Qed.

Lemma va_surface_image_alloc_cache_hit_witness :
  va_surface_image_alloc
    (sample_driver never [] (sample_image 3 VA_FOURCC_NV12 64 32))
    (sample_surface (sample_image 3 VA_FOURCC_NV12 64 32) true)
    (Some (image_format VA_FOURCC_NV12))
    [vaDeriveImage 1 7] =
  (Some (sample_image 3 VA_FOURCC_NV12 64 32),
   sample_surface (sample_image 3 VA_FOURCC_NV12 64 32) true,
   [vaDeriveImage 1 7]).
Proof.
  apply (va_surface_image_alloc_cache_hit
           (sample_driver never [] (sample_image 3 VA_FOURCC_NV12 64 32))
           (sample_surface (sample_image 3 VA_FOURCC_NV12 64 32) true)
           (image_format VA_FOURCC_NV12) [vaDeriveImage 1 7]).
  - vm_compute. discriminate.
  - reflexivity.
Defined.

(** ** Destruction *)

(** C8: destroying a surface that holds a view issues [vaDestroyImage] and
    then [vaDestroySurfaces], and nothing else, whatever the driver answers
    to the first call.  The surface is one that stands for a frame buffer,
    that is, its id is valid: line 173 makes both calls depend on it. *)
Theorem va_surface_destroy_order (drv : va_driver) (surface : va_surface)
    (log : call_log) :
  surface_id surface <> VA_INVALID_ID ->
  image_id (image (p surface)) <> VA_INVALID_ID ->
  snd (va_surface_destroy drv surface log) =
  log ++ [vaDestroyImage (display (p surface)) (image_id (image (p surface)));
          vaDestroySurfaces (display (p surface)) (surface_id surface) 1].
Proof.
  intros Hs Hi. unfold va_surface_destroy.
  apply Z.eqb_neq in Hs. apply Z.eqb_neq in Hi.
  rewrite Hs, Hi. st_unfold. cbn. rewrite <- app_assoc. reflexivity.
Qed.

Lemma va_surface_destroy_order_witness :
  snd (va_surface_destroy
         (sample_driver is_vaDestroyImage [] (sample_image 3 0 0 0))
         (sample_surface (sample_image 3 VA_FOURCC_NV12 64 32) false) []) =
  [vaDestroyImage 1 3; vaDestroySurfaces 1 7 1].
Proof.
  apply (va_surface_destroy_order
           (sample_driver is_vaDestroyImage [] (sample_image 3 0 0 0))
           (sample_surface (sample_image 3 VA_FOURCC_NV12 64 32) false) []);
    vm_compute; discriminate.
Defined.

(** ** Creating the mapped view *)

Lemma va_surface_image_destroy_eq (drv : va_driver) (surface : va_surface)
    (log : call_log) :
  va_surface_image_destroy drv surface log =
  if image_id (image (p surface)) =? VA_INVALID_ID then (surface, log)
  else (set_is_derived (set_image_id surface VA_INVALID_ID) false,
        log ++ [vaDestroyImage (display (p surface))
                  (image_id (image (p surface)))]).
Proof.
  unfold va_surface_image_destroy. st_unfold.
  destruct (image_id (image (p surface)) =? VA_INVALID_ID); reflexivity.
Qed.

(** Destroying the view touches neither the handle, the size nor the
    display of the surface. *)
Lemma va_surface_image_destroy_frame (drv : va_driver) (surface s0 : va_surface)
    (log log0 : call_log) :
  va_surface_image_destroy drv surface log = (s0, log0) ->
  surface_id s0 = surface_id surface /\ w s0 = w surface /\ h s0 = h surface /\
  rt_format s0 = rt_format surface /\
  display (p s0) = display (p surface) /\ ctx (p s0) = ctx (p surface).
Proof.
  rewrite va_surface_image_destroy_eq.
  destruct (image_id (image (p surface)) =? VA_INVALID_ID);
    intros [= <- <-]; repeat split; reflexivity.
Qed.

(** [va_surface_image_alloc] past the cache test, path by path. *)
Lemma va_surface_image_alloc_miss (drv : va_driver) (surface s0 : va_surface)
    (fmt : VAImageFormat) (log log0 : call_log) :
  view_cached surface fmt = false ->
  va_surface_image_destroy drv surface log = (s0, log0) ->
  let dpy := display (p surface) in
  let derive := vaDeriveImage dpy (surface_id surface) in
  let status := drv_status drv log0 derive in
  let derived := drv_image drv log0 derive (image (p s0)) in
  let log2 := derive_rejected_log log0 dpy (surface_id surface) status derived in
  let create := vaCreateImage dpy fmt (w surface) (h surface) in
  let created := drv_image drv log2 create (with_image_id derived VA_INVALID_ID) in
  va_surface_image_alloc drv surface (Some fmt) log =
  if derive_accepted surface fmt status derived then
    (Some derived, set_is_derived (set_image s0 derived) true, log0 ++ [derive])
  else if drv_status drv log2 create =? VA_STATUS_SUCCESS then
    (Some created, set_image s0 created, log2 ++ [create])
  else
    (None, set_image_id (set_image s0 created) VA_INVALID_ID, log2 ++ [create]).
Proof.
  intros Hmiss Hdestroy.
  destruct (va_surface_image_destroy_frame _ _ _ _ _ Hdestroy)
    as (Hid & Hw & Hh & _ & Hdpy & _).
  cbv zeta. unfold va_surface_image_alloc, derive_accepted, derive_rejected_log.
  unfold view_cached in Hmiss. rewrite Hmiss.
  unfold bind at 1. rewrite Hdestroy.
  unfold check_va_status. st_unfold.
  cbn [p image w h set_image set_image_id surface_id display].
  rewrite Hid, Hdpy, Hw, Hh.
  destruct (drv_status drv log0 _ =? VA_STATUS_SUCCESS) eqn:Es;
    cbn [andb negb].
  - destruct ((fourcc (format _) =? fourcc fmt) && _ && _) eqn:Em; cbn [negb].
    + rewrite Es. reflexivity.
    + change (VA_STATUS_ERROR_OPERATION_FAILED =? VA_STATUS_SUCCESS) with false.
      cbn [negb set_image_id set_image p image w h display surface_id].
      rewrite Hw, Hh.
      destruct (drv_status drv _ (vaCreateImage _ _ _ _) =? VA_STATUS_SUCCESS);
        reflexivity.
  - rewrite Es. cbn [negb set_image_id set_image p image w h display surface_id].
    rewrite app_nil_r, Hw, Hh.
    destruct (drv_status drv _ (vaCreateImage _ _ _ _) =? VA_STATUS_SUCCESS);
      reflexivity.
Qed.

Lemma va_surface_image_destroy_resets (drv : va_driver) (surface s0 : va_surface)
    (log log0 : call_log) :
  surface_inv surface ->
  va_surface_image_destroy drv surface log = (s0, log0) ->
  is_derived (p s0) = false /\ image_id (image (p s0)) = VA_INVALID_ID.
Proof.
  intros Hinv. rewrite va_surface_image_destroy_eq.
  destruct (image_id (image (p surface)) =? VA_INVALID_ID) eqn:E;
    intros [= <- <-].
  - apply Z.eqb_eq in E. split; [| exact E].
    destruct (is_derived (p surface)) eqn:Ed; [| reflexivity].
    exfalso. exact (Hinv Ed E).
  - split; reflexivity.
Qed.

(** C4: past the cache test, a derive that fails or whose view differs in
    fourcc, width or height from the request is followed by
    [vaCreateImage] of the requested format at the surface's size, whose
    status alone then decides the result; the call returns no view only if
    the derived view was not taken and the creation failed; and when a view
    is returned the flag says whether it is the derived one. *)
Theorem va_surface_image_alloc_fallback (drv : va_driver)
    (surface s0 s' : va_surface) (fmt : VAImageFormat)
    (log log0 log' : call_log) (r : option VAImage) :
  surface_inv surface ->
  view_cached surface fmt = false ->
  va_surface_image_destroy drv surface log = (s0, log0) ->
  va_surface_image_alloc drv surface (Some fmt) log = (r, s', log') ->
  let dpy := display (p surface) in
  let derive := vaDeriveImage dpy (surface_id surface) in
  let status := drv_status drv log0 derive in
  let derived := drv_image drv log0 derive (image (p s0)) in
  let accepted := derive_accepted surface fmt status derived in
  let log2 := derive_rejected_log log0 dpy (surface_id surface) status derived in
  let create := vaCreateImage dpy fmt (w surface) (h surface) in
  (accepted = false ->
   log' = log2 ++ [create] /\
   (r <> None <-> drv_status drv log2 create = VA_STATUS_SUCCESS)) /\
  (r = None <->
   accepted = false /\ drv_status drv log2 create <> VA_STATUS_SUCCESS) /\
  (r <> None -> is_derived (p s') = accepted).
Proof.
  intros Hinv Hmiss Hdestroy Halloc.
  destruct (va_surface_image_destroy_resets _ _ _ _ _ Hinv Hdestroy) as [Hflag _].
  pose proof (va_surface_image_alloc_miss drv surface s0 fmt log log0
                Hmiss Hdestroy) as Hpath.
  cbv zeta in Hpath |- *. rewrite Halloc in Hpath.
  destruct (derive_accepted surface fmt _ _) eqn:Eacc.
  - injection Hpath as -> -> ->.
    repeat split; try discriminate; try (intros []; discriminate).
  - destruct (drv_status drv _ (vaCreateImage _ _ _ _) =? VA_STATUS_SUCCESS)
      eqn:Ec; injection Hpath as -> -> ->.
    + apply Z.eqb_eq in Ec. repeat split; try discriminate; auto.
      intros [_ H]. contradiction.
    + apply Z.eqb_neq in Ec. repeat split; try congruence; auto.
Qed.

Lemma va_surface_image_alloc_fallback_witness :
  snd (va_surface_image_alloc
         (sample_driver is_vaDeriveImage [] (sample_image 3 0 0 0))
         (sample_surface (sample_image VA_INVALID_ID 0 0 0) false)
         (Some (image_format VA_FOURCC_NV12)) []) =
  [vaDeriveImage 1 7; vaCreateImage 1 (image_format VA_FOURCC_NV12) 64 32] /\
  is_derived
    (p (snd (fst (va_surface_image_alloc
                    (sample_driver is_vaDeriveImage [] (sample_image 3 0 0 0))
                    (sample_surface (sample_image VA_INVALID_ID 0 0 0) false)
                    (Some (image_format VA_FOURCC_NV12)) [])))) = false.
Proof.
  destruct (va_surface_image_alloc_fallback
              (sample_driver is_vaDeriveImage [] (sample_image 3 0 0 0))
              (sample_surface (sample_image VA_INVALID_ID 0 0 0) false)
              (sample_surface (sample_image VA_INVALID_ID 0 0 0) false)
              (sample_surface (sample_image 4 VA_FOURCC_NV12 64 32) false)
              (image_format VA_FOURCC_NV12)
              [] []
              [vaDeriveImage 1 7; vaCreateImage 1 (image_format VA_FOURCC_NV12) 64 32]
              (Some (sample_image 4 VA_FOURCC_NV12 64 32)))
    as (Hcreate & _ & Hflag).
  - intros H. discriminate H.
  - reflexivity.
  - reflexivity.
  - reflexivity.
  - split.
    + exact (proj1 (Hcreate eq_refl)).
    + exact (Hflag ltac:(discriminate)).
Defined.

(** ** The derived flag *)

Lemma alloc_surface_fresh (drv : va_driver) (c : mp_vaapi_ctx)
    (rt width height : Z) (log log' : call_log) (surface : va_surface) :
  alloc_surface drv c rt width height log = (Some surface, log') ->
  is_derived (p surface) = false /\
  image_id (image (p surface)) = VA_INVALID_ID /\
  buf (image (p surface)) = VA_INVALID_ID.
Proof.
  unfold alloc_surface. st_unfold.
  destruct (negb _); intros [= <- <-]. repeat split.
Qed.

Lemma va_surface_image_destroy_inv (drv : va_driver) (surface s0 : va_surface)
    (log log0 : call_log) :
  va_surface_image_destroy drv surface log = (s0, log0) ->
  (image_id (image (p surface)) <> VA_INVALID_ID ->
   is_derived (p s0) = false /\ image_id (image (p s0)) = VA_INVALID_ID) /\
  (surface_inv surface -> surface_inv s0).
Proof.
  rewrite va_surface_image_destroy_eq.
  destruct (image_id (image (p surface)) =? VA_INVALID_ID) eqn:E;
    intros [= <- <-].
  - apply Z.eqb_eq in E. split; [intros H; contradiction | auto].
  - split; [split; reflexivity | intros _ H; discriminate H].
Qed.

Lemma va_surface_image_alloc_inv (drv : va_driver) (surface s' : va_surface)
    (fmt : option VAImageFormat) (log log' : call_log) (r : option VAImage) :
  derive_yields_view drv ->
  surface_inv surface ->
  va_surface_image_alloc drv surface fmt log = (r, s', log') ->
  surface_inv s'.
Proof.
  intros Hdrv Hinv Halloc.
  destruct fmt as [fmt |]; [| injection Halloc as _ <- _; exact Hinv].
  destruct (view_cached surface fmt) eqn:Ehit.
  - unfold va_surface_image_alloc in Halloc. unfold view_cached in Ehit.
    rewrite Ehit in Halloc. injection Halloc as _ <- _. exact Hinv.
  - destruct (va_surface_image_destroy drv surface log) as [s0 log0] eqn:Ed.
    pose proof (va_surface_image_destroy_resets _ _ _ _ _ Hinv Ed) as [Hflag _].
    pose proof (va_surface_image_alloc_miss drv surface s0 fmt log log0 Ehit Ed)
      as Hpath.
    cbv zeta in Hpath. rewrite Halloc in Hpath.
    destruct (derive_accepted surface fmt _ _) eqn:Eacc.
    + injection Hpath as _ -> _. intros _. cbn.
      apply Hdrv. unfold derive_accepted in Eacc.
      apply andb_true_iff in Eacc as [Es _]. apply Z.eqb_eq in Es. exact Es.
    + destruct (drv_status drv _ (vaCreateImage _ _ _ _) =? VA_STATUS_SUCCESS);
        injection Hpath as _ -> _; intros H; cbn in H; congruence.
Qed.

Lemma va_surface_upload_inv (drv : va_driver) (surface s' : va_surface)
    (mpi : mp_image) (log log' : call_log) (ok : bool) :
  derive_yields_view drv ->
  surface_inv surface ->
  va_surface_upload drv surface mpi log = (ok, s', log') ->
  surface_inv s'.
Proof.
  intros Hdrv Hinv. unfold va_surface_upload, va_image_unmap. st_unfold.
  destruct (va_image_format_from_imgfmt _ _) as [fmt |];
    [| intros [= _ <- _]; exact Hinv].
  destruct (va_surface_image_alloc drv surface (Some fmt) log)
    as [[r s1] log1] eqn:Ea.
  pose proof (va_surface_image_alloc_inv _ _ _ _ _ _ _ Hdrv Hinv Ea) as Hinv1.
  split_paths; intros [= _ <- _]; exact Hinv1.
Qed.

Lemma try_download_inv (drv : va_driver) (surface s' : va_surface)
    (fmt : VAImageFormat) (pool : option Z) (log log' : call_log)
    (r : download_result) :
  derive_yields_view drv ->
  surface_inv surface ->
  try_download drv surface fmt pool log = (r, s', log') ->
  surface_inv s'.
Proof.
  intros Hdrv Hinv. unfold try_download, va_image_unmap. st_unfold.
  destruct (bool_decide _); [intros [= _ <- _]; exact Hinv |].
  destruct (va_surface_image_alloc drv surface (Some fmt) log)
    as [[a s1] log1] eqn:Ea.
  pose proof (va_surface_image_alloc_inv _ _ _ _ _ _ _ Hdrv Hinv Ea) as Hinv1.
  split_paths; intros [= _ <- _]; exact Hinv1.
Qed.

Lemma download_loop_inv (drv : va_driver) (formats : list VAImageFormat)
    (pool : option Z) :
  derive_yields_view drv ->
  forall (surface s' : va_surface) (log log' : call_log) (r : download_result),
    surface_inv surface ->
    download_loop drv formats surface pool log = (r, s', log') ->
    surface_inv s'.
Proof.
  intros Hdrv. induction formats as [| fmt rest IH]; intros surface s' log log' r Hinv.
  - intros [= _ <- _]. exact Hinv.
  - cbn [download_loop]. unfold bind at 1.
    destruct (try_download drv surface fmt pool log) as [[a s1] log1] eqn:Et.
    pose proof (try_download_inv _ _ _ _ _ _ _ _ Hdrv Hinv Et) as Hinv1.
    destruct a; try (intros [= _ <- _]; exact Hinv1).
    apply IH. exact Hinv1.
Qed.

Lemma va_surface_download_inv (drv : va_driver) (surface s' : va_surface)
    (pool : option Z) (log log' : call_log) (r : download_result) :
  derive_yields_view drv ->
  surface_inv surface ->
  va_surface_download drv surface pool log = (r, s', log') ->
  surface_inv s'.
Proof.
  intros Hdrv Hinv. unfold va_surface_download. st_unfold.
  destruct (negb (check_va_status _)); [intros [= _ <- _]; exact Hinv |].
  destruct (negb (image_id (image (p surface)) =? VA_INVALID_ID)).
  - destruct (try_download drv surface _ pool _) as [[a s1] log1] eqn:Et.
    pose proof (try_download_inv _ _ _ _ _ _ _ _ Hdrv Hinv Et) as Hinv1.
    destruct a; try (intros [= _ <- _]; exact Hinv1).
    apply download_loop_inv; assumption.
  - apply download_loop_inv; assumption.
Qed.

(** C9: with a driver whose successful [vaDeriveImage] yields a valid image
    id, the flag [is_derived] is set only on a surface that holds a view,
    and this is preserved by view allocation, view destruction, upload and
    download; a new surface has the flag clear and no view, and destroying
    an existing view clears both together. *)
Theorem is_derived_only_with_view (drv : va_driver) :
  derive_yields_view drv ->
  (forall c rt width height log log' surface,
      alloc_surface drv c rt width height log = (Some surface, log') ->
      is_derived (p surface) = false /\
      image_id (image (p surface)) = VA_INVALID_ID) /\
  (forall surface log s' log',
      va_surface_image_destroy drv surface log = (s', log') ->
      (image_id (image (p surface)) <> VA_INVALID_ID ->
       is_derived (p s') = false /\ image_id (image (p s')) = VA_INVALID_ID) /\
      (surface_inv surface -> surface_inv s')) /\
  (forall surface fmt log r s' log',
      surface_inv surface ->
      va_surface_image_alloc drv surface fmt log = (r, s', log') ->
      surface_inv s') /\
  (forall surface mpi log ok s' log',
      surface_inv surface ->
      va_surface_upload drv surface mpi log = (ok, s', log') ->
      surface_inv s') /\
  (forall surface fmt pool log r s' log',
      surface_inv surface ->
      try_download drv surface fmt pool log = (r, s', log') ->
      surface_inv s') /\
  (forall surface pool log r s' log',
      surface_inv surface ->
      va_surface_download drv surface pool log = (r, s', log') ->
      surface_inv s').
Proof.
  intros Hdrv. repeat split.
  - eapply alloc_surface_fresh; eassumption.
  - eapply alloc_surface_fresh; eassumption.
  - eapply (proj1 (va_surface_image_destroy_inv _ _ _ _ _ H)); assumption.
  - eapply (proj1 (va_surface_image_destroy_inv _ _ _ _ _ H)); assumption.
  - eapply (proj2 (va_surface_image_destroy_inv _ _ _ _ _ H)).
  - intros. eapply va_surface_image_alloc_inv; eassumption.
  - intros. eapply va_surface_upload_inv; eassumption.
  - intros. eapply try_download_inv; eassumption.
  - intros. eapply va_surface_download_inv; eassumption.
Qed.

Lemma is_derived_only_with_view_witness :
  derive_yields_view
    (sample_driver never [] (sample_image 3 VA_FOURCC_NV12 64 32)) /\
  surface_inv
    (snd (fst (va_surface_upload
                 (sample_driver never [] (sample_image 3 VA_FOURCC_NV12 64 32))
                 (sample_surface (sample_image VA_INVALID_ID 0 0 0) false)
                 nv12_frame []))).
Proof.
  assert (Hdrv : derive_yields_view
            (sample_driver never [] (sample_image 3 VA_FOURCC_NV12 64 32))).
  { intros hist dpy sid old _. cbn. unfold VA_INVALID_ID. lia. }
  split; [exact Hdrv |].
  destruct (is_derived_only_with_view _ Hdrv) as (_ & _ & _ & Hupload & _).
  destruct (va_surface_upload _ _ _ _) as [[ok s'] log'] eqn:Eup.
  refine (Hupload _ _ _ _ _ _ _ Eup).
  intros H. discriminate H.
Defined.

(** ** Mapping a view *)

(** The plane loop after [n] rounds. *)
Lemma plane_loop_eq (data : Z) (img : VAImage) (fmt : mp_imgfmt) (n : nat) :
  let cell (v : nat -> Z) (i : nat) := if (i <? n)%nat then v i else 0 in
  fold_left (set_plane data img) (seq 0 n)
    (mp_image_set_size (mp_image_setfmt mp_image_zero fmt) (width img) (height img)) =
  {| imgfmt := fmt; mpi_w := width img; mpi_h := height img;
     planes := map (cell (fun i => data + offsets img !!! i)) [0; 1; 2; 3]%nat;
     stride := map (cell (fun i => to_int (pitches img !!! i))) [0; 1; 2; 3]%nat |}.
Proof.
  induction n as [| n IH]; [reflexivity |].
  rewrite seq_S, fold_left_app, IH. cbn [fold_left Nat.add].
  unfold set_plane. cbn [imgfmt mpi_w mpi_h planes stride].
  destruct n as [| [| [| [| n]]]]; reflexivity.
Qed.

Lemma plane_loop_layout (data : Z) (img : VAImage) (fmt : mp_imgfmt) :
  fold_left (set_plane data img) (seq 0 (Z.to_nat (num_planes img)))
    (mp_image_set_size (mp_image_setfmt mp_image_zero fmt) (width img) (height img)) =
  {| imgfmt := fmt; mpi_w := width img; mpi_h := height img;
     planes := [layout_plane data img 0; layout_plane data img 1;
                layout_plane data img 2; layout_plane data img 3];
     stride := [layout_stride img 0; layout_stride img 1;
                layout_stride img 2; layout_stride img 3] |}.
Proof. rewrite plane_loop_eq. reflexivity. Qed.

Lemma to_int_layout_stride (img : VAImage) (i : nat) :
  to_int (layout_stride img i) = layout_stride img i.
Proof.
  unfold layout_stride. destruct (i <? _)%nat; [apply to_int_idem | reflexivity].
Qed.

(** C7: a successful [va_image_map] of an image of at most three planes
    hands out the driver's layout, plane by plane, with the pointers and
    strides of planes 1 and 2 exchanged when the view's fourcc is
    VA_FOURCC_YV12 and untouched otherwise. *)
Theorem va_image_map_chroma_swap (drv : va_driver) (c : mp_vaapi_ctx)
    (img : VAImage) (log log' : call_log) (mpi : mp_image) :
  num_planes img <= 3 ->
  va_image_map drv c img log = (Some mpi, log') ->
  let data := drv_data drv log (vaMapBuffer (ctx_display c) (buf img)) in
  (fourcc (format img) = VA_FOURCC_YV12 ->
   stride mpi = [layout_stride img 0; layout_stride img 2;
                 layout_stride img 1; layout_stride img 3] /\
   planes mpi = [layout_plane data img 0; layout_plane data img 2;
                 layout_plane data img 1; layout_plane data img 3]) /\
  (fourcc (format img) <> VA_FOURCC_YV12 ->
   stride mpi = [layout_stride img 0; layout_stride img 1;
                 layout_stride img 2; layout_stride img 3] /\
   planes mpi = [layout_plane data img 0; layout_plane data img 1;
                 layout_plane data img 2; layout_plane data img 3]).
Proof.
  intros _. unfold va_image_map. st_unfold.
  destruct (bool_decide _); [discriminate |].
  destruct (negb _); [discriminate |].
  rewrite plane_loop_layout. cbv zeta.
  destruct (fourcc (format img) =? VA_FOURCC_YV12) eqn:Ey;
    intros [= <- _]; [apply Z.eqb_eq in Ey | apply Z.eqb_neq in Ey];
    (split; [intros Hy | intros Hn]); try contradiction.
  - unfold swap_chroma. cbn [planes stride]. split; [| reflexivity].
    transitivity [layout_stride img 0;
                  to_int (to_uint32 (layout_stride img 2));
                  layout_stride img 1; layout_stride img 3];
      [reflexivity |].
    rewrite to_int_to_uint32, to_int_layout_stride. reflexivity.
  - split; reflexivity.
Qed.

Lemma va_image_map_chroma_swap_witness :
  planes
    (default mp_image_zero
       (fst (va_image_map
               (sample_driver never [] (sample_image 3 0 0 0)) sample_ctx
               (sample_image 3 VA_FOURCC_YV12 64 32) []))) =
  [4096; 4096 + 2560; 4096 + 2048; 0].
Proof.
  destruct (va_image_map_chroma_swap
              (sample_driver never [] (sample_image 3 0 0 0)) sample_ctx
              (sample_image 3 VA_FOURCC_YV12 64 32) [] [vaMapBuffer 1 9]
              {| imgfmt := IMGFMT_420P; mpi_w := 64; mpi_h := 32;
                 planes := [4096; 6656; 6144; 0];
                 stride := [64; 32; 32; 0] |}
              ltac:(cbn; lia) eq_refl) as [Hswap _].
  exact (proj2 (Hswap eq_refl)).
Defined.

(** ** Upload *)

(** C5: an upload that got its view and mapped it copies, unmaps and then,
    for a view that is not derived, issues exactly one [vaPutImage2], whose
    status is the result; for a derived view it issues no commit and
    succeeds.  Nothing follows a failed commit: the copy stays as it was
    made and the surface keeps its view. *)
Theorem va_surface_upload_commit (drv : va_driver) (surface s1 : va_surface)
    (mpi img : mp_image) (fmt : VAImageFormat) (view : VAImage)
    (log log1 log2 : call_log) :
  va_image_format_from_imgfmt (Some (image_formats (ctx (p surface))))
    (imgfmt mpi) = Some fmt ->
  va_surface_image_alloc drv surface (Some fmt) log = (Some view, s1, log1) ->
  va_image_map drv (ctx (p s1)) (image (p s1)) log1 = (Some img, log2) ->
  let map_call := vaMapBuffer (ctx_display (ctx (p s1))) (buf (image (p s1))) in
  let copied :=
    log1 ++ [map_call; mp_image_copy img mpi;
             vaUnmapBuffer (ctx_display (ctx (p s1))) (buf (image (p s1)))] in
  let put :=
    vaPutImage2 (display (p s1)) (surface_id s1) (image_id (image (p s1)))
      0 0 (to_uint32 (mpi_w mpi)) (to_uint32 (mpi_h mpi))
      0 0 (to_uint32 (mpi_w mpi)) (to_uint32 (mpi_h mpi)) in
  (is_derived (p s1) = false ->
   va_surface_upload drv surface mpi log =
   (drv_status drv copied put =? VA_STATUS_SUCCESS, s1, copied ++ [put])) /\
  (is_derived (p s1) = true ->
   va_surface_upload drv surface mpi log = (true, s1, copied)).
Proof.
  intros Hfmt Halloc Hmap. cbv zeta.
  assert (Hlog2 : log2 = log1 ++ [vaMapBuffer (ctx_display (ctx (p s1)))
                                    (buf (image (p s1)))]).
  { revert Hmap. unfold va_image_map. st_unfold.
    destruct (bool_decide _); [discriminate |].
    destruct (negb _); [discriminate |]. now intros [= _ <-]. }
  unfold va_surface_upload, va_image_unmap, check_va_status. st_unfold.
  rewrite Hfmt, Halloc, Hmap. subst log2.
  split; intros ->; cbn [negb]; rewrite <- ?app_assoc; cbn [app];
    [| reflexivity].
  destruct (drv_status drv _ _ =? VA_STATUS_SUCCESS); cbn [negb];
    rewrite <- ?app_assoc; reflexivity.
Qed.

Lemma va_surface_upload_commit_witness :
  va_surface_upload
    (sample_driver is_vaPutImage2_or_vaDeriveImage [] (sample_image 3 0 0 0))
    (sample_surface (sample_image VA_INVALID_ID 0 0 0) false) nv12_frame [] =
  (false, sample_surface (sample_image 4 VA_FOURCC_NV12 64 32) false,
   [vaDeriveImage 1 7; vaCreateImage 1 (image_format VA_FOURCC_NV12) 64 32;
    vaMapBuffer 1 9;
    mp_image_copy
      {| imgfmt := IMGFMT_NV12; mpi_w := 64; mpi_h := 32;
         planes := [4096; 6144; 6656; 0]; stride := [64; 32; 32; 0] |}
      nv12_frame;
    vaUnmapBuffer 1 9;
    vaPutImage2 1 7 4 0 0 64 32 0 0 64 32]).
Proof.
  refine (proj1 (va_surface_upload_commit
            (sample_driver is_vaPutImage2_or_vaDeriveImage [] (sample_image 3 0 0 0))
            (sample_surface (sample_image VA_INVALID_ID 0 0 0) false)
            (sample_surface (sample_image 4 VA_FOURCC_NV12 64 32) false)
            nv12_frame
            {| imgfmt := IMGFMT_NV12; mpi_w := 64; mpi_h := 32;
               planes := [4096; 6144; 6656; 0]; stride := [64; 32; 32; 0] |}
            (image_format VA_FOURCC_NV12)
            (sample_image 4 VA_FOURCC_NV12 64 32)
            []
            [vaDeriveImage 1 7;
             vaCreateImage 1 (image_format VA_FOURCC_NV12) 64 32]
            [vaDeriveImage 1 7;
             vaCreateImage 1 (image_format VA_FOURCC_NV12) 64 32;
             vaMapBuffer 1 9]
            _ _ _) _); reflexivity.
Defined.

(** ** Download *)

(** [va_image_map] makes at most the one call, and makes it when it
    succeeds. *)
Lemma va_image_map_log (drv : va_driver) (c : mp_vaapi_ctx) (img : VAImage)
    (log log' : call_log) (m : option mp_image) :
  va_image_map drv c img log = (m, log') ->
  exists called : bool,
    log' = log ++ (if called then [vaMapBuffer (ctx_display c) (buf img)] else [])
    /\ (m <> None -> called = true).
Proof.
  unfold va_image_map. st_unfold.
  destruct (bool_decide _).
  - intros [= <- <-]. exists false. rewrite app_nil_r. split; congruence.
  - destruct (negb _); intros [= <- <-]; exists true; split; reflexivity.
Qed.

(** C10: once [try_download] has its view, it calls [vaGetImage] exactly
    when the view is not derived; for a derived view the calls that follow
    contain no [vaGetImage], and when the map succeeds the destination is
    filled from the mapped view itself. *)
Theorem try_download_read_back (drv : va_driver) (surface s1 s' : va_surface)
    (fmt : VAImageFormat) (view : VAImage) (pool : option Z)
    (log log1 log' : call_log) (r : download_result) :
  va_fourcc_to_imgfmt (fourcc fmt) <> IMGFMT_NONE ->
  va_surface_image_alloc drv surface (Some fmt) log = (Some view, s1, log1) ->
  try_download drv surface fmt pool log = (r, s', log') ->
  let get :=
    vaGetImage (display (p s1)) (surface_id s1) 0 0
      (to_uint32 (w s1)) (to_uint32 (h s1)) (image_id (image (p s1))) in
  s' = s1 /\
  (exists rest,
      List.filter is_vaGetImage rest = [] /\
      log' = log1 ++ (if is_derived (p s1) then [] else [get]) ++ rest) /\
  (is_derived (p s1) = true ->
   forall tmp log2,
     va_image_map drv (ctx (p s1)) (image (p s1)) log1 = (Some tmp, log2) ->
     imgfmt tmp = va_fourcc_to_imgfmt (fourcc fmt) ->
     exists dst,
       r = Image dst /\
       log' = log2 ++ [dst_call pool (imgfmt tmp) (mpi_w tmp) (mpi_h tmp);
                       mp_image_copy dst tmp;
                       vaUnmapBuffer (ctx_display (ctx (p s1)))
                         (buf (image (p s1)))]).
Proof.
  intros Hfmt Halloc. cbv zeta.
  unfold try_download, va_image_unmap. st_unfold.
  rewrite bool_decide_eq_false_2 by exact Hfmt. rewrite Halloc.
  destruct (is_derived (p s1)) eqn:Ed; cbn [negb].
  - destruct (va_image_map drv (ctx (p s1)) (image (p s1)) log1)
      as [m log2] eqn:Hm.
    destruct (va_image_map_log _ _ _ _ _ _ Hm) as (called & -> & Hcalled).
    destruct m as [tmp |].
    + rewrite (Hcalled ltac:(discriminate)).
      destruct (bool_decide (imgfmt tmp = _)) eqn:Ea; cbn [negb].
      * apply bool_decide_eq_true_1 in Ea.
        destruct pool; cbn [dst_call]; intros [= <- <- <-];
          (split; [reflexivity |]); (split; [give_rest |]);
          intros _ tmp' log2 [= <- <-] _; rewrite Ea; eexists;
          rewrite <- ?app_assoc; split; reflexivity.
      * apply bool_decide_eq_false_1 in Ea.
        intros [= <- <- <-]. split; [reflexivity |]. split; [give_rest |].
        intros _ tmp' log2 [= <- <-] Hok. contradiction.
    + intros [= <- <- <-]. split; [reflexivity |]. split.
      * destruct called; give_rest.
      * intros _ tmp' log2 [=].
  - destruct (drv_status drv log1 _ =? VA_STATUS_SUCCESS); cbn [negb].
    + destruct (va_image_map drv (ctx (p s1)) (image (p s1)) _)
        as [m log2] eqn:Hm.
      destruct (va_image_map_log _ _ _ _ _ _ Hm) as (called & -> & Hcalled).
      destruct m as [tmp |].
      * rewrite (Hcalled ltac:(discriminate)).
        destruct (negb _); [| destruct pool]; intros [= <- <- <-];
          (split; [reflexivity |]); (split; [give_rest | discriminate]).
      * intros [= <- <- <-]. split; [reflexivity |]. split; [| discriminate].
        destruct called; give_rest.
    + intros [= <- <- <-]. split; [reflexivity |]. split; [| discriminate].
      give_rest.
Qed.

Lemma try_download_read_back_witness :
  exists dst,
    fst (fst (try_download
                (sample_driver never [] (sample_image 3 0 0 0))
                (sample_surface (sample_image 3 VA_FOURCC_NV12 64 32) true)
                (image_format VA_FOURCC_NV12) None [])) = Image dst /\
    snd (try_download
           (sample_driver never [] (sample_image 3 0 0 0))
           (sample_surface (sample_image 3 VA_FOURCC_NV12 64 32) true)
           (image_format VA_FOURCC_NV12) None []) =
    [vaMapBuffer 1 9; mp_image_alloc IMGFMT_NV12 64 32;
     mp_image_copy dst nv12_view; vaUnmapBuffer 1 9].
Proof.
  destruct (try_download _ _ _ _ _) as [[r s'] log'] eqn:Etry.
  destruct (try_download_read_back
              (sample_driver never [] (sample_image 3 0 0 0))
              (sample_surface (sample_image 3 VA_FOURCC_NV12 64 32) true)
              (sample_surface (sample_image 3 VA_FOURCC_NV12 64 32) true)
              s' (image_format VA_FOURCC_NV12)
              (sample_image 3 VA_FOURCC_NV12 64 32) None [] [] log' r
              ltac:(vm_compute; discriminate) eq_refl Etry)
    as (_ & _ & Hderived).
  exact (Hderived eq_refl nv12_view [vaMapBuffer 1 9] eq_refl eq_refl).
Defined.

(** The loop stops at the first attempt that does not come back with NULL
    and runs to the end otherwise. *)
Lemma download_loop_first (drv : va_driver) (pool : option Z)
    (formats : list VAImageFormat) :
  forall (surface s' : va_surface) (log log' : call_log) (r : download_result),
    download_loop drv formats surface pool log = (r, s', log') <->
    (r = Null /\ all_failed drv pool formats surface log s' log') \/
    (r <> Null /\
     exists tried fmt later s1 log1,
       formats = tried ++ fmt :: later /\
       all_failed drv pool tried surface log s1 log1 /\
       try_download drv s1 fmt pool log1 = (r, s', log')).
Proof.
  induction formats as [| fmt rest IH]; intros surface s' log log' r.
  - cbn [download_loop]. unfold ret. split.
    + intros [= <- <- <-]. left. split; [reflexivity | constructor].
    + intros [[-> Hall] | [_ (tried & f & later & s1 & log1 & Heq & _)]].
      * inversion Hall; subst. reflexivity.
      * destruct tried; discriminate Heq.
  - cbn [download_loop]. unfold bind at 1.
    destruct (try_download drv surface fmt pool log) as [[a s1] log1] eqn:Etry.
    split.
    + intros Hloop. destruct a.
      * injection Hloop as <- <- <-. right. split; [discriminate |].
        exists [], fmt, rest, surface, log.
        repeat split; [constructor | exact Etry].
      * apply IH in Hloop as [[-> Hall] | [Hr (tried & f & later & s2 & log2 & -> & Hall & Hf)]].
        -- left. split; [reflexivity |]. econstructor; eassumption.
        -- right. split; [exact Hr |].
           exists (fmt :: tried), f, later, s2, log2.
           repeat split; [econstructor; eassumption | exact Hf].
      * injection Hloop as <- <- <-. right. split; [discriminate |].
        exists [], fmt, rest, surface, log.
        repeat split; [constructor | exact Etry].
    + intros [[-> Hall] | [Hr (tried & f & later & s2 & log2 & Heq & Hall & Hf)]].
      * inversion Hall; subst.
        match goal with H : try_download _ _ _ _ _ = _ |- _ =>
          rewrite Etry in H; injection H as -> -> -> end.
        apply IH. left. split; [reflexivity | assumption].
      * destruct tried as [| f0 tried].
        -- injection Heq as <- <-. inversion Hall; subst.
           rewrite Etry in Hf. injection Hf as -> -> ->.
           destruct r; [reflexivity | contradiction | reflexivity].
        -- injection Heq as <- ->. inversion Hall; subst.
           match goal with H : try_download _ _ _ _ _ = (Null, _, _) |- _ =>
             rewrite Etry in H; injection H as -> -> -> end.
           apply IH. right. split; [exact Hr |].
           exists tried, f, later, s2, log2. repeat split; assumption.
Qed.

(** C6: once [vaSyncSurface] has succeeded, the format of a cached view is
    tried first, and what that attempt yields is returned if it is not
    NULL; otherwise the registry entries are attempted in order, each from
    where the previous attempt left the surface, the search stops at the
    first attempt that yields an image (or trips the assertion) and returns
    it, and NULL is returned only when every entry came back with NULL. *)
Theorem va_surface_download_search (drv : va_driver) (surface s0 : va_surface)
    (pool : option Z) (log log0 : call_log) (r0 : download_result) :
  let sync := vaSyncSurface (display (p surface)) (surface_id surface) in
  let registry := entries (image_formats (ctx (p surface))) in
  drv_status drv log sync = VA_STATUS_SUCCESS ->
  (if image_id (image (p surface)) =? VA_INVALID_ID
   then (Null, surface, log ++ [sync])
   else try_download drv surface (format (image (p surface))) pool
          (log ++ [sync])) = (r0, s0, log0) ->
  forall (r : download_result) (s' : va_surface) (log' : call_log),
    va_surface_download drv surface pool log = (r, s', log') <->
    (r0 <> Null /\ (r, s', log') = (r0, s0, log0)) \/
    (r0 = Null /\ r = Null /\ all_failed drv pool registry s0 log0 s' log') \/
    (r0 = Null /\ r <> Null /\
     exists tried fmt later s1 log1,
       registry = tried ++ fmt :: later /\
       all_failed drv pool tried s0 log0 s1 log1 /\
       try_download drv s1 fmt pool log1 = (r, s', log')).
Proof.
  cbv zeta. intros Hsync Hfast r s' log'.
  unfold va_surface_download, check_va_status. st_unfold.
  rewrite Hsync. cbn [Z.eqb negb VA_STATUS_SUCCESS].
  change (0 =? 0) with true. cbn [negb].
  assert (Hfast' :
    (if negb (image_id (image (p surface)) =? VA_INVALID_ID)
     then try_download drv surface (format (image (p surface))) pool
     else fun l => (Null, surface, l))
      (log ++ [vaSyncSurface (display (p surface)) (surface_id surface)]) =
    (r0, s0, log0)).
  { destruct (image_id (image (p surface)) =? VA_INVALID_ID); exact Hfast. }
  rewrite Hfast'. clear Hfast Hfast'.
  destruct r0.
  - split.
    + intros [= <- <- <-]. left. split; [discriminate | reflexivity].
    + intros [[_ [= -> -> ->]] | [[[=] _] | [[=] _]]]. reflexivity.
  - rewrite download_loop_first. split.
    + intros [[-> Hall] | [Hr Hex]]; [right; left | right; right]; auto.
    + intros [[H _] | [(_ & -> & Hall) | (_ & Hr & Hex)]];
        [contradiction | left | right]; auto.
  - split.
    + intros [= <- <- <-]. left. split; [discriminate | reflexivity].
    + intros [[_ [= -> -> ->]] | [[[=] _] | [[=] _]]]. reflexivity.
Qed.

Lemma va_surface_download_search_witness :
  va_surface_download
    (sample_driver fails_search [] (sample_image 3 0 0 0))
    (search_surface (sample_image VA_INVALID_ID 0 0 0)) None [] =
  (Image nv12_dst,
   search_surface (sample_image 4 VA_FOURCC_NV12 64 32),
   [vaSyncSurface 1 7;
    vaDeriveImage 1 7; vaCreateImage 1 (image_format VA_FOURCC_RGBA) 64 32;
    vaDeriveImage 1 7; vaCreateImage 1 (image_format VA_FOURCC_NV12) 64 32;
    vaGetImage 1 7 0 0 64 32 4; vaMapBuffer 1 9;
    mp_image_alloc IMGFMT_NV12 64 32; mp_image_copy nv12_dst nv12_view;
    vaUnmapBuffer 1 9]).
Proof.
  apply (proj2 (va_surface_download_search
                  (sample_driver fails_search [] (sample_image 3 0 0 0))
                  (search_surface (sample_image VA_INVALID_ID 0 0 0))
                  (search_surface (sample_image VA_INVALID_ID 0 0 0))
                  None [] [vaSyncSurface 1 7] Null eq_refl eq_refl _ _ _)).
  right. right. split; [reflexivity |]. split; [discriminate |].
  exists [image_format 77; image_format VA_FOURCC_RGBA],
         (image_format VA_FOURCC_NV12), [image_format VA_FOURCC_YV12],
         (search_surface (sample_image VA_INVALID_ID VA_FOURCC_RGBA 64 32)),
         [vaSyncSurface 1 7; vaDeriveImage 1 7;
          vaCreateImage 1 (image_format VA_FOURCC_RGBA) 64 32].
  split; [reflexivity |]. split; [| reflexivity].
  apply (all_failed_cons _ _ _ _ _ _
           (search_surface (sample_image VA_INVALID_ID 0 0 0))
           [vaSyncSurface 1 7]); [reflexivity |].
  apply (all_failed_cons _ _ _ _ _ _
           (search_surface (sample_image VA_INVALID_ID VA_FOURCC_RGBA 64 32))
           [vaSyncSurface 1 7; vaDeriveImage 1 7;
            vaCreateImage 1 (image_format VA_FOURCC_RGBA) 64 32]);
    [reflexivity |].
  apply all_failed_nil.
Defined.

(** * Further properties of the code *)

(** ** Format translation, both ways *)

Lemma va_fourcc_to_imgfmt_cases (fcc : Z) :
  In (va_fourcc_to_imgfmt fcc)
     [IMGFMT_NONE; IMGFMT_420P; IMGFMT_NV12; IMGFMT_UYVY; IMGFMT_YUYV;
      IMGFMT_RGBA; IMGFMT_BGRA].
Proof.
  unfold va_fourcc_to_imgfmt, va_to_imgfmt.
  cbn [fourcc_to_imgfmt_loop va mp].
  repeat match goal with
         | |- context [if ?c =? 0 then _ else _] =>
             change (c =? 0) with false; cbv iota
         | |- context [if ?c =? fcc then _ else _] => destruct (c =? fcc)
         end;
    cbn; tauto.
Qed.

(** X1: translating a generic format to its fourcc and back gives the
    format again; translating a known fourcc to its generic format and back
    gives a fourcc (the first alias in the table) of the same generic
    format. *)
Theorem va_fourcc_translation_round_trip (fmt : mp_imgfmt) (fcc : Z) :
  (va_fourcc_from_imgfmt fmt <> 0 ->
   va_fourcc_to_imgfmt (va_fourcc_from_imgfmt fmt) = fmt) /\
  (va_fourcc_to_imgfmt fcc <> IMGFMT_NONE ->
   va_fourcc_from_imgfmt (va_fourcc_to_imgfmt fcc) <> 0 /\
   va_fourcc_to_imgfmt (va_fourcc_from_imgfmt (va_fourcc_to_imgfmt fcc)) =
   va_fourcc_to_imgfmt fcc).
Proof.
  split.
  - destruct fmt; vm_compute; congruence.
  - intros Hknown. pose proof (va_fourcc_to_imgfmt_cases fcc) as Hcases.
    cbn [In] in Hcases.
    destruct Hcases as [H | [H | [H | [H | [H | [H | [H | []]]]]]]];
      rewrite <- H in *; try (exfalso; apply Hknown; reflexivity);
      split; vm_compute; congruence.
Qed.

Lemma va_fourcc_translation_round_trip_witness :
  va_fourcc_to_imgfmt (va_fourcc_from_imgfmt IMGFMT_RGBA) = IMGFMT_RGBA /\
  va_fourcc_from_imgfmt (va_fourcc_to_imgfmt VA_FOURCC_IYUV) <> 0 /\
  va_fourcc_to_imgfmt (va_fourcc_from_imgfmt (va_fourcc_to_imgfmt VA_FOURCC_IYUV)) =
  va_fourcc_to_imgfmt VA_FOURCC_IYUV.
Proof.
  split.
  - apply (proj1 (va_fourcc_translation_round_trip IMGFMT_RGBA 0)).
    vm_compute. discriminate.
  - apply (proj2 (va_fourcc_translation_round_trip IMGFMT_NONE VA_FOURCC_IYUV)).
    vm_compute. discriminate.
Defined.

(** The first element that [find] accepts, and what came before it. *)
Lemma find_first_split {A : Type} (f : A -> bool) (l : list A) (x : A) :
  List.find f l = Some x ->
  exists before after,
    l = before ++ x :: after /\ f x = true /\
    forall y, In y before -> f y = false.
Proof.
  induction l as [| a l IH]; [discriminate |].
  cbn [List.find]. destruct (f a) eqn:Ea.
  - intros [= ->]. exists [], l. repeat split; [exact Ea | intros y []].
  - intros Hfind. destruct (IH Hfind) as (before & after & -> & Hx & Hbefore).
    exists (a :: before), after. repeat split; [exact Hx |].
    intros y [<- | Hy]; [exact Ea | exact (Hbefore y Hy)].
Qed.

(** X2: a descriptor returned by the lookup is an entry of the registry
    whose fourcc translates back to the requested generic format, and it is
    the first entry of the registry with that fourcc. *)
Theorem va_image_format_from_imgfmt_sound (formats : option va_image_formats)
    (fmt : mp_imgfmt) (e : VAImageFormat) :
  va_image_format_from_imgfmt formats fmt = Some e ->
  fmt <> IMGFMT_NONE /\
  va_fourcc_to_imgfmt (fourcc e) = fmt /\
  exists fs before after,
    formats = Some fs /\
    entries fs = before ++ e :: after /\
    forall e', In e' before -> fourcc e' <> fourcc e.
Proof.
  destruct formats as [fs |]; [| discriminate].
  rewrite va_image_format_from_imgfmt_find.
  destruct (va_fourcc_from_imgfmt fmt =? 0) eqn:E0; [discriminate |].
  apply Z.eqb_neq in E0. intros Hfind.
  destruct (find_first_split _ _ _ Hfind) as (before & after & Hsplit & He & Hb).
  apply Z.eqb_eq in He. repeat split.
  - intros ->. apply E0. reflexivity.
  - rewrite He. apply va_fourcc_roundtrip. exact E0.
  - exists fs, before, after. repeat split; [exact Hsplit |].
    intros e' He' Heq. specialize (Hb e' He'). apply Z.eqb_neq in Hb.
    apply Hb. rewrite Heq. exact He.
Qed.

Lemma va_image_format_from_imgfmt_sound_witness :
  va_fourcc_to_imgfmt (fourcc (image_format VA_FOURCC_YV12)) = IMGFMT_420P.
Proof.
  exact (proj1 (proj2 (va_image_format_from_imgfmt_sound
                         (Some registry_nv12_yv12) IMGFMT_420P
                         (image_format VA_FOURCC_YV12) eq_refl))).
Defined.

(** X3: the lookup yields nothing without a registry, with an empty
    registry, and for the formats that have no table entry, among them
    IMGFMT_NONE and IMGFMT_VAAPI. *)
Theorem va_image_format_from_imgfmt_nothing (formats : option va_image_formats)
    (fmt : mp_imgfmt) :
  (formats = None \/ (exists fs, formats = Some fs /\ entries fs = []) \/
   va_fourcc_from_imgfmt fmt = 0 ->
   va_image_format_from_imgfmt formats fmt = None) /\
  va_fourcc_from_imgfmt IMGFMT_NONE = 0 /\
  va_fourcc_from_imgfmt IMGFMT_VAAPI = 0 /\
  (forall code, va_fourcc_from_imgfmt (IMGFMT_other code) = 0).
Proof.
  split; [| repeat split].
  intros [-> | [(fs & -> & Hempty) | Hnone]]; [reflexivity | |].
  - rewrite va_image_format_from_imgfmt_find, Hempty.
    destruct (_ =? 0); reflexivity.
  - destruct formats as [fs |]; [| reflexivity].
    rewrite va_image_format_from_imgfmt_find, Hnone. reflexivity.
Qed.

Lemma va_image_format_from_imgfmt_nothing_witness :
  va_image_format_from_imgfmt (Some registry_nv12_yv12) IMGFMT_VAAPI = None.
Proof.
  apply (proj1 (va_image_format_from_imgfmt_nothing
                  (Some registry_nv12_yv12) IMGFMT_VAAPI)).
  right. right. reflexivity.
Defined.

(** ** Opening and closing a context *)

(** X4: [va_initialize] stops at a failed [vaInitialize] without asking for
    formats; it terminates the display exactly when [vaInitialize] had
    succeeded, the format query failed and the display is not NULL; a
    successful creation makes the three calls and no [vaTerminate]. *)
Theorem va_initialize_calls (drv : va_driver) (dpy : Z) (log : call_log) :
  let hist := (log ++ [vaInitialize dpy]) ++ [vaMaxNumImageFormats dpy] in
  let init_ok := drv_status drv log (vaInitialize dpy) =? VA_STATUS_SUCCESS in
  let query_ok :=
    drv_status drv hist (vaQueryImageFormats dpy) =? VA_STATUS_SUCCESS in
  snd (va_initialize drv dpy log) =
  log ++ vaInitialize dpy ::
    (if init_ok then
       [vaMaxNumImageFormats dpy; vaQueryImageFormats dpy]
         ++ (if query_ok || (dpy =? 0) then [] else [vaTerminate dpy])
     else []).
Proof.
  cbv zeta. unfold va_initialize, va_get_formats, check_va_status. st_unfold.
  destruct (drv_status drv log (vaInitialize dpy) =? VA_STATUS_SUCCESS);
    cbn [negb snd]; [| reflexivity].
  destruct (drv_status drv _ (vaQueryImageFormats dpy) =? VA_STATUS_SUCCESS);
    cbn [negb snd orb].
  - rewrite <- !app_assoc. reflexivity.
  - destruct (dpy =? 0); cbn [negb snd]; rewrite <- !app_assoc; reflexivity.
Qed.

(** X5: over [va_initialize] followed by [va_destroy] of what it returned,
    a display that is not NULL is terminated exactly once if [vaInitialize]
    succeeded and never if it failed. *)
Theorem va_initialize_va_destroy_balanced (drv : va_driver) (dpy : Z)
    (log log1 log2 : call_log) (c : option mp_vaapi_ctx) :
  dpy <> 0 ->
  va_initialize drv dpy log = (c, log1) ->
  snd (va_destroy drv c log1) = log2 ->
  exists calls,
    log2 = log ++ calls /\
    List.filter is_vaTerminate calls =
    if drv_status drv log (vaInitialize dpy) =? VA_STATUS_SUCCESS
    then [vaTerminate dpy] else [].
Proof.
  intros Hdpy. apply Z.eqb_neq in Hdpy.
  unfold va_initialize, va_get_formats, va_destroy, check_va_status. st_unfold.
  destruct (drv_status drv log (vaInitialize dpy) =? VA_STATUS_SUCCESS);
    cbn [negb].
  - destruct (drv_status drv _ (vaQueryImageFormats dpy) =? VA_STATUS_SUCCESS);
      cbn [negb]; rewrite ?Hdpy; cbn [negb];
      intros [= <- <-]; cbn [ctx_display]; rewrite ?Hdpy; cbn [negb snd];
      intros <-; eexists; (split; [rewrite <- !app_assoc; reflexivity |]);
      reflexivity.
  - intros [= <- <-] <-. cbn [snd]. eexists. split; reflexivity.
Qed.

Lemma va_initialize_va_destroy_balanced_witness :
  exists calls,
    [vaInitialize 1; vaMaxNumImageFormats 1; vaQueryImageFormats 1;
     vaTerminate 1] = [] ++ calls /\
    List.filter is_vaTerminate calls = [vaTerminate 1].
Proof.
  exact (va_initialize_va_destroy_balanced
           (sample_driver never [image_format VA_FOURCC_NV12]
              (sample_image 3 0 0 0))
           1 []
           [vaInitialize 1; vaMaxNumImageFormats 1; vaQueryImageFormats 1]
           [vaInitialize 1; vaMaxNumImageFormats 1; vaQueryImageFormats 1;
            vaTerminate 1]
           (Some {| ctx_display := 1;
                    image_formats :=
                      {| entries := [image_format VA_FOURCC_NV12] |} |})
           ltac:(discriminate) eq_refl eq_refl).
Defined.

(** ** Surfaces and the images that carry them *)

(** X6: the pool allocator refuses every format but IMGFMT_VAAPI without
    calling the driver; for IMGFMT_VAAPI it makes exactly one call,
    [vaCreateSurfaces] for one surface with the bound run-time format, and
    returns a surface exactly when that call succeeds: one of the requested
    size, tied to the context, with no view and the flag clear. *)
Theorem alloc_pool_single_purpose (drv : va_driver) (pctx : pool_alloc_ctx)
    (fmt : mp_imgfmt) (width height : Z) (log : call_log) :
  let call :=
    vaCreateSurfaces (ctx_display (vaapi pctx)) width height
      (pool_rt_format pctx) 1 in
  (fmt <> IMGFMT_VAAPI ->
   alloc_pool drv pctx fmt width height log = (None, log)) /\
  (fmt = IMGFMT_VAAPI ->
   snd (alloc_pool drv pctx fmt width height log) = log ++ [call] /\
   (drv_status drv log call <> VA_STATUS_SUCCESS ->
    fst (alloc_pool drv pctx fmt width height log) = None) /\
   (drv_status drv log call = VA_STATUS_SUCCESS ->
    exists surface,
      fst (alloc_pool drv pctx fmt width height log) = Some surface /\
      surface_id surface = drv_surface drv log call /\
      w surface = width /\ h surface = height /\
      rt_format surface = pool_rt_format pctx /\
      ctx (p surface) = vaapi pctx /\
      display (p surface) = ctx_display (vaapi pctx) /\
      is_derived (p surface) = false /\
      image_id (image (p surface)) = VA_INVALID_ID /\
      buf (image (p surface)) = VA_INVALID_ID)).
Proof.
  cbv zeta. unfold alloc_pool, alloc_surface, check_va_status. st_unfold.
  split.
  - intros Hfmt. rewrite bool_decide_eq_false_2 by exact Hfmt. reflexivity.
  - intros ->. rewrite bool_decide_eq_true_2 by reflexivity. cbn [negb].
    destruct (drv_status drv log _ =? VA_STATUS_SUCCESS) eqn:Es; cbn [negb fst snd].
    + apply Z.eqb_eq in Es. split; [reflexivity |]. split; [congruence |].
      intros _. eexists. repeat split.
    + apply Z.eqb_neq in Es. split; [reflexivity |]. split; [reflexivity |].
      intros H. contradiction.
Qed.

Lemma alloc_pool_single_purpose_witness :
  alloc_pool (sample_driver never [] (sample_image 3 0 0 0))
    {| vaapi := sample_ctx; pool_rt_format := 1 |} IMGFMT_NV12 64 32 [] =
  (None, []) /\
  snd (alloc_pool (sample_driver never [] (sample_image 3 0 0 0))
         {| vaapi := sample_ctx; pool_rt_format := 1 |} IMGFMT_VAAPI 64 32 []) =
  [vaCreateSurfaces 1 64 32 1 1].
Proof.
  split.
  - apply (proj1 (alloc_pool_single_purpose
                    (sample_driver never [] (sample_image 3 0 0 0))
                    {| vaapi := sample_ctx; pool_rt_format := 1 |}
                    IMGFMT_NV12 64 32 [])).
    discriminate.
  - apply (proj2 (alloc_pool_single_purpose
                    (sample_driver never [] (sample_image 3 0 0 0))
                    {| vaapi := sample_ctx; pool_rt_format := 1 |}
                    IMGFMT_VAAPI 64 32 [])).
    reflexivity.
Defined.

(** X7: from the image wrapped around a surface the accessors give back
    the surface's address and, for an id that fits a [VASurfaceID], its id;
    from NULL or an image of any other format they give NULL and
    VA_INVALID_ID. *)
Theorem va_surface_mp_image_round_trip (addr : Z) (surface : va_surface)
    (other : mp_image) :
  (0 <= surface_id surface < 2 ^ 32 ->
   va_surface_id_in_mp_image (Some (va_surface_mp_image addr surface)) =
   va_surface_id (Some surface)) /\
  va_surface_in_mp_image (Some (va_surface_mp_image addr surface)) = addr /\
  mpi_w (va_surface_mp_image addr surface) = w surface /\
  mpi_h (va_surface_mp_image addr surface) = h surface /\
  (imgfmt other <> IMGFMT_VAAPI ->
   va_surface_id_in_mp_image (Some other) = VA_INVALID_ID /\
   va_surface_in_mp_image (Some other) = 0) /\
  va_surface_id_in_mp_image None = VA_INVALID_ID /\
  va_surface_in_mp_image None = 0 /\
  va_surface_id None = VA_INVALID_ID.
Proof.
  repeat split.
  - intros Hid. cbn. apply to_uint32_small. exact Hid.
  - unfold va_surface_id_in_mp_image.
    rewrite bool_decide_eq_false_2 by exact H. reflexivity.
  - unfold va_surface_in_mp_image.
    rewrite bool_decide_eq_false_2 by exact H. reflexivity.
Qed.

Lemma va_surface_mp_image_round_trip_witness :
  va_surface_id_in_mp_image
    (Some (va_surface_mp_image 4660
             (sample_surface (sample_image 3 VA_FOURCC_NV12 64 32) false))) = 7 /\
  va_surface_id_in_mp_image (Some nv12_frame) = VA_INVALID_ID.
Proof.
  split.
  - apply (proj1 (va_surface_mp_image_round_trip 4660
                    (sample_surface (sample_image 3 VA_FOURCC_NV12 64 32) false)
                    nv12_frame)).
    cbn. lia.
  - destruct (va_surface_mp_image_round_trip 4660
                (sample_surface (sample_image 3 VA_FOURCC_NV12 64 32) false)
                nv12_frame) as (_ & _ & _ & _ & Hother & _).
    apply Hother. discriminate.
Defined.

(** X8: a surface whose id is VA_INVALID_ID is released without any call;
    one with a valid id and no view is released by [vaDestroySurfaces]
    alone; and [vaDestroyImage] is never issued for VA_INVALID_ID. *)
Theorem release_va_surface_calls (drv : va_driver) (surface : va_surface)
    (log : call_log) :
  (surface_id surface = VA_INVALID_ID ->
   snd (release_va_surface drv surface log) = log) /\
  (surface_id surface <> VA_INVALID_ID ->
   image_id (image (p surface)) = VA_INVALID_ID ->
   snd (release_va_surface drv surface log) =
   log ++ [vaDestroySurfaces (display (p surface)) (surface_id surface) 1]) /\
  (exists calls,
      snd (release_va_surface drv surface log) = log ++ calls /\
      forall dpy, ~ In (vaDestroyImage dpy VA_INVALID_ID) calls).
Proof.
  unfold release_va_surface, va_surface_destroy. st_unfold.
  destruct (surface_id surface =? VA_INVALID_ID) eqn:Es; cbn [negb snd].
  - apply Z.eqb_eq in Es. repeat split; try congruence.
    exists []. split; [now rewrite app_nil_r | intros dpy []].
  - apply Z.eqb_neq in Es.
    destruct (image_id (image (p surface)) =? VA_INVALID_ID) eqn:Ei;
      cbn [negb snd].
    + repeat split; try congruence.
      eexists. split; [reflexivity |].
      intros dpy [H | []]. discriminate H.
    + apply Z.eqb_neq in Ei. repeat split; try congruence.
      eexists. split; [rewrite <- app_assoc; reflexivity |].
      intros dpy [H | [H | []]]; [| discriminate H].
      injection H as _ H. contradiction.
Qed.

Lemma release_va_surface_calls_witness :
  snd (release_va_surface (sample_driver never [] (sample_image 3 0 0 0))
         (sample_surface (sample_image VA_INVALID_ID 0 0 0) false) []) =
  [vaDestroySurfaces 1 7 1].
Proof.
  apply (proj1 (proj2 (release_va_surface_calls
                         (sample_driver never [] (sample_image 3 0 0 0))
                         (sample_surface (sample_image VA_INVALID_ID 0 0 0) false)
                         []))).
  - vm_compute. discriminate.
  - reflexivity.
Defined.

(** ** The life of a mapped view *)

(** X9: after [va_surface_image_destroy] the surface holds no view, and
    destroying again changes nothing and makes no call; a surface without
    view is left as it is. *)
Theorem va_surface_image_destroy_idempotent (drv : va_driver)
    (surface s1 : va_surface) (log log1 : call_log) :
  va_surface_image_destroy drv surface log = (s1, log1) ->
  image_id (image (p s1)) = VA_INVALID_ID /\
  va_surface_image_destroy drv s1 log1 = (s1, log1) /\
  (image_id (image (p surface)) = VA_INVALID_ID -> s1 = surface /\ log1 = log).
Proof.
  rewrite !va_surface_image_destroy_eq.
  destruct (image_id (image (p surface)) =? VA_INVALID_ID) eqn:E;
    intros [= <- <-].
  - rewrite E. apply Z.eqb_eq in E. auto.
  - apply Z.eqb_neq in E. cbn. repeat split; try reflexivity; contradiction.
Qed.

Lemma va_surface_image_destroy_idempotent_witness :
  va_surface_image_destroy (sample_driver never [] (sample_image 3 0 0 0))
    (sample_surface (sample_image VA_INVALID_ID VA_FOURCC_NV12 64 32) false)
    [vaDestroyImage 1 3] =
  (sample_surface (sample_image VA_INVALID_ID VA_FOURCC_NV12 64 32) false,
   [vaDestroyImage 1 3]).
Proof.
  exact (proj1 (proj2 (va_surface_image_destroy_idempotent
                         (sample_driver never [] (sample_image 3 0 0 0))
                         (sample_surface (sample_image 3 VA_FOURCC_NV12 64 32) true)
                         (sample_surface
                            (sample_image VA_INVALID_ID VA_FOURCC_NV12 64 32) false)
                         [] [vaDestroyImage 1 3] eq_refl))).
Defined.

(** What [va_surface_image_alloc] hands back is the surface's own image. *)
Lemma va_surface_image_alloc_returns_view (drv : va_driver)
    (surface s' : va_surface) (fmt : option VAImageFormat)
    (log log' : call_log) (v : VAImage) :
  va_surface_image_alloc drv surface fmt log = (Some v, s', log') ->
  v = image (p s').
Proof.
  destruct fmt as [fmt |]; [| discriminate].
  destruct (view_cached surface fmt) eqn:Ehit.
  - unfold va_surface_image_alloc. unfold view_cached in Ehit. rewrite Ehit.
    now intros [= <- <- _].
  - destruct (va_surface_image_destroy drv surface log) as [s0 log0] eqn:Ed.
    rewrite (va_surface_image_alloc_miss drv surface s0 fmt log log0 Ehit Ed).
    cbv zeta. destruct (derive_accepted _ _ _ _).
    + now intros [= <- <- _].
    + destruct (_ =? VA_STATUS_SUCCESS); [now intros [= <- <- _] | discriminate].
Qed.

(** X10: when [va_surface_image_alloc] returns no view for a given format,
    the surface is left without view, its last call was the failed
    [vaCreateImage] of the requested format at the surface's size, and (on
    a surface that satisfied the flag invariant) the flag is clear. *)
Theorem va_surface_image_alloc_failure_leaves_no_view (drv : va_driver)
    (surface s' : va_surface) (fmt : VAImageFormat) (log log' : call_log) :
  va_surface_image_alloc drv surface (Some fmt) log = (None, s', log') ->
  image_id (image (p s')) = VA_INVALID_ID /\
  (exists before,
      log' = before ++ [vaCreateImage (display (p surface)) fmt
                          (w surface) (h surface)] /\
      drv_status drv before
        (vaCreateImage (display (p surface)) fmt (w surface) (h surface))
      <> VA_STATUS_SUCCESS) /\
  (surface_inv surface -> is_derived (p s') = false).
Proof.
  destruct (view_cached surface fmt) eqn:Ehit.
  - unfold va_surface_image_alloc. unfold view_cached in Ehit. rewrite Ehit.
    discriminate.
  - destruct (va_surface_image_destroy drv surface log) as [s0 log0] eqn:Ed.
    rewrite (va_surface_image_alloc_miss drv surface s0 fmt log log0 Ehit Ed).
    cbv zeta. destruct (derive_accepted _ _ _ _); [discriminate |].
    destruct (_ =? VA_STATUS_SUCCESS) eqn:Ec; [discriminate |].
    apply Z.eqb_neq in Ec. intros [= <- <-]. repeat split.
    + eexists. split; [reflexivity | exact Ec].
    + intros Hinv.
      exact (proj1 (va_surface_image_destroy_resets _ _ _ _ _ Hinv Ed)).
Qed.

Lemma va_surface_image_alloc_failure_leaves_no_view_witness :
  image_id (image (p (search_surface
                        (sample_image VA_INVALID_ID VA_FOURCC_RGBA 64 32)))) =
  VA_INVALID_ID.
Proof.
  exact (proj1 (va_surface_image_alloc_failure_leaves_no_view
                  (sample_driver fails_search [] (sample_image 3 0 0 0))
                  (search_surface (sample_image VA_INVALID_ID 0 0 0))
                  (search_surface (sample_image VA_INVALID_ID VA_FOURCC_RGBA 64 32))
                  (image_format VA_FOURCC_RGBA) []
                  [vaDeriveImage 1 7;
                   vaCreateImage 1 (image_format VA_FOURCC_RGBA) 64 32]
                  eq_refl)).
Defined.

(** Whatever [va_surface_image_alloc] preserves, the transfers preserve:
    they change the surface through it alone. *)
Lemma transfers_preserve (drv : va_driver) (P : va_surface -> Prop) :
  (forall s fmt log r s' log',
      P s -> va_surface_image_alloc drv s fmt log = (r, s', log') -> P s') ->
  (forall s mpi log ok s' log',
      P s -> va_surface_upload drv s mpi log = (ok, s', log') -> P s') /\
  (forall s fmt pool log r s' log',
      P s -> try_download drv s fmt pool log = (r, s', log') -> P s') /\
  (forall formats s pool log r s' log',
      P s -> download_loop drv formats s pool log = (r, s', log') -> P s') /\
  (forall s pool log r s' log',
      P s -> va_surface_download drv s pool log = (r, s', log') -> P s').
Proof.
  intros Halloc.
  assert (Hup : forall s mpi log ok s' log',
    P s -> va_surface_upload drv s mpi log = (ok, s', log') -> P s').
  { intros s mpi log ok s' log' HP.
    unfold va_surface_upload, va_image_unmap. st_unfold.
    destruct (va_image_format_from_imgfmt _ _) as [fmt |];
      [| intros [= _ <- _]; exact HP].
    destruct (va_surface_image_alloc drv s (Some fmt) log)
      as [[r s1] log1] eqn:Ea.
    pose proof (Halloc _ _ _ _ _ _ HP Ea) as HP1.
    split_paths; intros [= _ <- _]; exact HP1. }
  assert (Htry : forall s fmt pool log r s' log',
    P s -> try_download drv s fmt pool log = (r, s', log') -> P s').
  { intros s fmt pool log r s' log' HP.
    unfold try_download, va_image_unmap. st_unfold.
    destruct (bool_decide _); [intros [= _ <- _]; exact HP |].
    destruct (va_surface_image_alloc drv s (Some fmt) log)
      as [[a s1] log1] eqn:Ea.
    pose proof (Halloc _ _ _ _ _ _ HP Ea) as HP1.
    split_paths; intros [= _ <- _]; exact HP1. }
  assert (Hloop : forall formats s pool log r s' log',
    P s -> download_loop drv formats s pool log = (r, s', log') -> P s').
  { induction formats as [| fmt rest IH]; intros s pool log r s' log' HP.
    - intros [= _ <- _]. exact HP.
    - cbn [download_loop]. unfold bind at 1.
      destruct (try_download drv s fmt pool log) as [[a s1] log1] eqn:Et.
      pose proof (Htry _ _ _ _ _ _ _ HP Et) as HP1.
      destruct a; try (intros [= _ <- _]; exact HP1).
      apply IH. exact HP1. }
  split; [exact Hup | split; [exact Htry | split; [exact Hloop |]]].
  intros s pool log r s' log' HP. unfold va_surface_download. st_unfold.
  destruct (negb (check_va_status _)); [intros [= _ <- _]; exact HP |].
  destruct (negb (image_id (image (p s)) =? VA_INVALID_ID)).
  - destruct (try_download drv s _ pool _) as [[a s1] log1] eqn:Et.
    pose proof (Htry _ _ _ _ _ _ _ HP Et) as HP1.
    destruct a; try (intros [= _ <- _]; exact HP1).
    apply Hloop. exact HP1.
  - apply Hloop. exact HP.
Qed.

Lemma same_frame_refl (s : va_surface) : same_frame s s.
Proof. repeat split. Qed.

Lemma same_frame_trans (s1 s2 s3 : va_surface) :
  same_frame s1 s2 -> same_frame s2 s3 -> same_frame s1 s3.
Proof. unfold same_frame. intuition congruence. Qed.

Lemma va_surface_image_alloc_frame (drv : va_driver) (surface s' : va_surface)
    (fmt : option VAImageFormat) (log log' : call_log) (r : option VAImage) :
  va_surface_image_alloc drv surface fmt log = (r, s', log') ->
  same_frame surface s'.
Proof.
  destruct fmt as [fmt |]; [| intros [= _ <- _]; apply same_frame_refl].
  destruct (view_cached surface fmt) eqn:Ehit.
  - unfold va_surface_image_alloc. unfold view_cached in Ehit. rewrite Ehit.
    intros [= _ <- _]. apply same_frame_refl.
  - destruct (va_surface_image_destroy drv surface log) as [s0 log0] eqn:Ed.
    rewrite (va_surface_image_alloc_miss drv surface s0 fmt log log0 Ehit Ed).
    destruct (va_surface_image_destroy_frame _ _ _ _ _ Ed)
      as (H1 & H2 & H3 & H4 & H5 & H6).
    cbv zeta.
    destruct (derive_accepted _ _ _ _);
      [| destruct (_ =? VA_STATUS_SUCCESS)];
      intros [= _ <- _]; repeat split; assumption.
Qed.

(** X11: view allocation, upload and download never change a surface's
    handle, size, run-time format, context or display. *)
Theorem transfers_keep_frame (drv : va_driver) :
  (forall s fmt log r s' log',
      va_surface_image_alloc drv s fmt log = (r, s', log') -> same_frame s s') /\
  (forall s mpi log ok s' log',
      va_surface_upload drv s mpi log = (ok, s', log') -> same_frame s s') /\
  (forall s fmt pool log r s' log',
      try_download drv s fmt pool log = (r, s', log') -> same_frame s s') /\
  (forall s pool log r s' log',
      va_surface_download drv s pool log = (r, s', log') -> same_frame s s').
Proof.
  assert (Hgen : forall s0,
    (forall s mpi log ok s' log',
        same_frame s0 s -> va_surface_upload drv s mpi log = (ok, s', log') ->
        same_frame s0 s') /\
    (forall s fmt pool log r s' log',
        same_frame s0 s -> try_download drv s fmt pool log = (r, s', log') ->
        same_frame s0 s') /\
    (forall formats s pool log r s' log',
        same_frame s0 s ->
        download_loop drv formats s pool log = (r, s', log') ->
        same_frame s0 s') /\
    (forall s pool log r s' log',
        same_frame s0 s -> va_surface_download drv s pool log = (r, s', log') ->
        same_frame s0 s')).
  { intros s0. apply (transfers_preserve drv (same_frame s0)).
    intros s fmt log r s' log' H0 Ha.
    eapply same_frame_trans; [exact H0 |].
    eapply va_surface_image_alloc_frame; exact Ha. }
  split; [| split; [| split]].
  - intros s fmt log r s' log' Ha.
    eapply va_surface_image_alloc_frame; exact Ha.
  - intros s mpi log ok s' log'.
    apply (proj1 (Hgen s)). apply same_frame_refl.
  - intros s fmt pool log r s' log'.
    apply (proj1 (proj2 (Hgen s))). apply same_frame_refl.
  - intros s pool log r s' log'.
    apply (proj2 (proj2 (proj2 (Hgen s)))). apply same_frame_refl.
Qed.

Lemma transfers_keep_frame_witness :
  same_frame
    (search_surface (sample_image VA_INVALID_ID 0 0 0))
    (search_surface (sample_image 4 VA_FOURCC_NV12 64 32)).
Proof.
  refine (proj2 (proj2 (proj2 (transfers_keep_frame
            (sample_driver fails_search [] (sample_image 3 0 0 0)))))
          (search_surface (sample_image VA_INVALID_ID 0 0 0)) None []
          (Image nv12_dst) _
          [vaSyncSurface 1 7;
           vaDeriveImage 1 7; vaCreateImage 1 (image_format VA_FOURCC_RGBA) 64 32;
           vaDeriveImage 1 7; vaCreateImage 1 (image_format VA_FOURCC_NV12) 64 32;
           vaGetImage 1 7 0 0 64 32 4; vaMapBuffer 1 9;
           mp_image_alloc IMGFMT_NV12 64 32; mp_image_copy nv12_dst nv12_view;
           vaUnmapBuffer 1 9] _).
  reflexivity.
Defined.

Lemma va_surface_image_alloc_fits (drv : va_driver) (surface s' : va_surface)
    (fmt : option VAImageFormat) (log log' : call_log) (r : option VAImage) :
  derive_yields_view drv ->
  derived_view_fits surface ->
  va_surface_image_alloc drv surface fmt log = (r, s', log') ->
  derived_view_fits s'.
Proof.
  intros Hdrv Hfits.
  assert (Hinv : surface_inv surface) by (intros Hd; exact (proj1 (Hfits Hd))).
  destruct fmt as [fmt |]; [| intros [= _ <- _]; exact Hfits].
  destruct (view_cached surface fmt) eqn:Ehit.
  - unfold va_surface_image_alloc. unfold view_cached in Ehit. rewrite Ehit.
    intros [= _ <- _]. exact Hfits.
  - destruct (va_surface_image_destroy drv surface log) as [s0 log0] eqn:Ed.
    rewrite (va_surface_image_alloc_miss drv surface s0 fmt log log0 Ehit Ed).
    destruct (va_surface_image_destroy_frame _ _ _ _ _ Ed)
      as (_ & Hw & Hh & _).
    destruct (va_surface_image_destroy_resets _ _ _ _ _ Hinv Ed) as [Hflag _].
    cbv zeta. destruct (derive_accepted _ _ _ _) eqn:Eacc.
    + intros [= _ <- _] _. cbn [p image set_is_derived set_image w h].
      unfold derive_accepted in Eacc.
      apply andb_true_iff in Eacc as [Es Em].
      apply andb_true_iff in Em as [Em Ehh].
      apply andb_true_iff in Em as [_ Eww].
      apply Z.eqb_eq in Es, Eww, Ehh.
      split; [apply Hdrv; exact Es |]. split; congruence.
    + destruct (_ =? VA_STATUS_SUCCESS); intros [= _ <- _] Hd;
        cbn in Hd; congruence.
Qed.

(** X12: with a driver whose successful [vaDeriveImage] yields a valid
    image id, a surface marked as derived always holds a live view of
    exactly its own width and height: this holds of every new surface and
    is kept by view allocation, view destruction, upload and download. *)
Theorem derived_view_always_fits (drv : va_driver) :
  derive_yields_view drv ->
  (forall c rt width height log log' s,
      alloc_surface drv c rt width height log = (Some s, log') ->
      derived_view_fits s) /\
  (forall s log s' log',
      derived_view_fits s ->
      va_surface_image_destroy drv s log = (s', log') -> derived_view_fits s') /\
  (forall s fmt log r s' log',
      derived_view_fits s ->
      va_surface_image_alloc drv s fmt log = (r, s', log') ->
      derived_view_fits s') /\
  (forall s mpi log ok s' log',
      derived_view_fits s ->
      va_surface_upload drv s mpi log = (ok, s', log') -> derived_view_fits s') /\
  (forall s pool log r s' log',
      derived_view_fits s ->
      va_surface_download drv s pool log = (r, s', log') ->
      derived_view_fits s').
Proof.
  intros Hdrv.
  assert (Halloc : forall s fmt log r s' log',
    derived_view_fits s ->
    va_surface_image_alloc drv s fmt log = (r, s', log') ->
    derived_view_fits s').
  { intros s fmt log r s' log' Hf Ha.
    exact (va_surface_image_alloc_fits _ _ _ _ _ _ _ Hdrv Hf Ha). }
  destruct (transfers_preserve drv derived_view_fits Halloc)
    as (Hup & _ & _ & Hdown).
  split; [| split; [| split; [exact Halloc | split; [exact Hup | exact Hdown]]]].
  - intros c rt width height log log' s Hs Hd.
    destruct (alloc_surface_fresh _ _ _ _ _ _ _ _ Hs) as [Hflag _]. congruence.
  - intros s log s' log' Hf. rewrite va_surface_image_destroy_eq.
    destruct (image_id (image (p s)) =? VA_INVALID_ID); intros [= <- <-];
      [exact Hf | intros Hd; discriminate Hd].
Qed.

Lemma derived_view_always_fits_witness :
  derived_view_fits
    (snd (fst (va_surface_upload
                 (sample_driver never [] (sample_image 3 VA_FOURCC_NV12 64 32))
                 (sample_surface (sample_image VA_INVALID_ID 0 0 0) false)
                 nv12_frame []))).
Proof.
  assert (Hdrv : derive_yields_view
            (sample_driver never [] (sample_image 3 VA_FOURCC_NV12 64 32))).
  { intros hist dpy sid old _. cbn. unfold VA_INVALID_ID. lia. }
  destruct (derived_view_always_fits _ Hdrv) as (_ & _ & _ & Hupload & _).
  destruct (va_surface_upload _ _ _ _) as [[ok s'] log'] eqn:Eup.
  refine (Hupload _ _ _ _ _ _ _ Eup).
  intros H. discriminate H.
Defined.

(** X13: asking for a format other than that of the view the surface
    holds destroys the old view first and then attempts exactly one
    [vaDeriveImage]. *)
Theorem va_surface_image_alloc_switch (drv : va_driver)
    (surface s' : va_surface) (fmt : VAImageFormat) (log log' : call_log)
    (r : option VAImage) :
  image_id (image (p surface)) <> VA_INVALID_ID ->
  fourcc (format (image (p surface))) <> fourcc fmt ->
  va_surface_image_alloc drv surface (Some fmt) log = (r, s', log') ->
  exists rest,
    log' = log ++ vaDestroyImage (display (p surface))
                    (image_id (image (p surface)))
               :: vaDeriveImage (display (p surface)) (surface_id surface)
               :: rest /\
    List.filter is_vaDeriveImage rest = [].
Proof.
  intros Hid Hfcc.
  assert (Ehit : view_cached surface fmt = false).
  { unfold view_cached. apply Z.eqb_neq in Hfcc. rewrite Hfcc.
    apply andb_false_r. }
  pose proof (va_surface_image_destroy_eq drv surface log) as Ed.
  apply Z.eqb_neq in Hid. rewrite Hid in Ed.
  rewrite (va_surface_image_alloc_miss drv surface _ fmt log _ Ehit Ed).
  cbv zeta. unfold derive_rejected_log.
  destruct (derive_accepted _ _ _ _);
    [| destruct (drv_status drv _ (vaDeriveImage _ _) =? VA_STATUS_SUCCESS);
       destruct (drv_status drv _ (vaCreateImage _ _ _ _) =? VA_STATUS_SUCCESS)];
    intros [= _ _ <-]; eexists;
    (split; [rewrite <- ?app_assoc; cbn [app]; reflexivity | reflexivity]).
Qed.

Lemma va_surface_image_alloc_switch_witness :
  exists rest,
    [vaDestroyImage 1 3; vaDeriveImage 1 7;
     vaCreateImage 1 (image_format VA_FOURCC_YV12) 64 32] =
    [] ++ vaDestroyImage 1 3 :: vaDeriveImage 1 7 :: rest /\
    List.filter is_vaDeriveImage rest = [].
Proof.
  exact (va_surface_image_alloc_switch
           (sample_driver is_vaDeriveImage [] (sample_image 3 0 0 0))
           (sample_surface (sample_image 3 VA_FOURCC_NV12 64 32) true)
           (sample_surface (sample_image 4 VA_FOURCC_YV12 64 32) false)
           (image_format VA_FOURCC_YV12) []
           [vaDestroyImage 1 3; vaDeriveImage 1 7;
            vaCreateImage 1 (image_format VA_FOURCC_YV12) 64 32]
           (Some (sample_image 4 VA_FOURCC_YV12 64 32))
           ltac:(vm_compute; discriminate) ltac:(vm_compute; discriminate)
           eq_refl).
Defined.

(** X14: the view that [va_surface_image_alloc] returns is the surface's
    own image, and if it carries a valid id and the requested fourcc, a
    second call for the same format returns it again without changing the
    surface and without any call. *)
Theorem va_surface_image_alloc_twice (drv : va_driver)
    (surface s1 : va_surface) (fmt : VAImageFormat) (log log1 : call_log)
    (view : VAImage) :
  va_surface_image_alloc drv surface (Some fmt) log = (Some view, s1, log1) ->
  view = image (p s1) /\
  (image_id view <> VA_INVALID_ID ->
   fourcc (format view) = fourcc fmt ->
   va_surface_image_alloc drv s1 (Some fmt) log1 = (Some view, s1, log1)).
Proof.
  intros Ha.
  pose proof (va_surface_image_alloc_returns_view _ _ _ _ _ _ _ Ha) as ->.
  split; [reflexivity |].
  intros Hid Hfcc. unfold va_surface_image_alloc.
  apply Z.eqb_neq in Hid. apply Z.eqb_eq in Hfcc.
  rewrite Hid, Hfcc. reflexivity.
Qed.

Lemma va_surface_image_alloc_twice_witness :
  va_surface_image_alloc
    (sample_driver is_vaDeriveImage [] (sample_image 3 0 0 0))
    (sample_surface (sample_image 4 VA_FOURCC_NV12 64 32) false)
    (Some (image_format VA_FOURCC_NV12))
    [vaDeriveImage 1 7; vaCreateImage 1 (image_format VA_FOURCC_NV12) 64 32] =
  (Some (sample_image 4 VA_FOURCC_NV12 64 32),
   sample_surface (sample_image 4 VA_FOURCC_NV12 64 32) false,
   [vaDeriveImage 1 7; vaCreateImage 1 (image_format VA_FOURCC_NV12) 64 32]).
Proof.
  apply (proj2 (va_surface_image_alloc_twice
                  (sample_driver is_vaDeriveImage [] (sample_image 3 0 0 0))
                  (sample_surface (sample_image VA_INVALID_ID 0 0 0) false)
                  (sample_surface (sample_image 4 VA_FOURCC_NV12 64 32) false)
                  (image_format VA_FOURCC_NV12) []
                  [vaDeriveImage 1 7;
                   vaCreateImage 1 (image_format VA_FOURCC_NV12) 64 32]
                  (sample_image 4 VA_FOURCC_NV12 64 32) eq_refl)).
  - vm_compute. discriminate.
  - reflexivity.
Defined.

(** ** Mapping and upload *)

Lemma plane_loop_lengths (data : Z) (img : VAImage) (fmt : mp_imgfmt) :
  let mpi :=
    fold_left (set_plane data img) (seq 0 (Z.to_nat (num_planes img)))
      (mp_image_set_size (mp_image_setfmt mp_image_zero fmt)
         (width img) (height img)) in
  imgfmt mpi = fmt /\ mpi_w mpi = width img /\ mpi_h mpi = height img.
Proof. cbv zeta. rewrite plane_loop_layout. repeat split. Qed.

(** What a successful [va_image_map] wrote besides the plane layout. *)
Lemma va_image_map_fields (drv : va_driver) (c : mp_vaapi_ctx) (img : VAImage)
    (log log' : call_log) (mpi : mp_image) :
  va_image_map drv c img log = (Some mpi, log') ->
  log' = log ++ [vaMapBuffer (ctx_display c) (buf img)] /\
  drv_status drv log (vaMapBuffer (ctx_display c) (buf img)) = VA_STATUS_SUCCESS /\
  imgfmt mpi = va_fourcc_to_imgfmt (fourcc (format img)) /\
  imgfmt mpi <> IMGFMT_NONE /\
  mpi_w mpi = width img /\ mpi_h mpi = height img.
Proof.
  unfold va_image_map, check_va_status. st_unfold.
  destruct (bool_decide _) eqn:En; [discriminate |].
  apply bool_decide_eq_false_1 in En.
  destruct (drv_status drv log _ =? VA_STATUS_SUCCESS) eqn:Es; cbn [negb];
    [| discriminate].
  apply Z.eqb_eq in Es. rewrite plane_loop_layout.
  destruct (fourcc (format img) =? VA_FOURCC_YV12); intros [= <- <-];
    repeat split; assumption.
Qed.

(** X15: [va_image_map] fails without calling the driver when the view's
    fourcc has no generic format, and fails after the one [vaMapBuffer]
    when that call fails; when it succeeds it has made exactly that call,
    and the image it hands out carries the generic format of the view's
    fourcc and the view's width and height. *)
Theorem va_image_map_outcome (drv : va_driver) (c : mp_vaapi_ctx)
    (img : VAImage) (log : call_log) :
  let call := vaMapBuffer (ctx_display c) (buf img) in
  (va_fourcc_to_imgfmt (fourcc (format img)) = IMGFMT_NONE ->
   va_image_map drv c img log = (None, log)) /\
  (va_fourcc_to_imgfmt (fourcc (format img)) <> IMGFMT_NONE ->
   drv_status drv log call <> VA_STATUS_SUCCESS ->
   va_image_map drv c img log = (None, log ++ [call])) /\
  (forall mpi log',
      va_image_map drv c img log = (Some mpi, log') ->
      log' = log ++ [call] /\
      drv_status drv log call = VA_STATUS_SUCCESS /\
      imgfmt mpi = va_fourcc_to_imgfmt (fourcc (format img)) /\
      imgfmt mpi <> IMGFMT_NONE /\
      mpi_w mpi = width img /\ mpi_h mpi = height img).
Proof.
  cbv zeta. split; [| split].
  - intros Hnone. unfold va_image_map.
    rewrite bool_decide_eq_true_2 by exact Hnone. reflexivity.
  - intros Hknown Hfail. unfold va_image_map, check_va_status. st_unfold.
    rewrite bool_decide_eq_false_2 by exact Hknown.
    apply Z.eqb_neq in Hfail. rewrite Hfail. reflexivity.
  - intros mpi log'. apply va_image_map_fields.
Qed.

Lemma va_image_map_outcome_witness :
  va_image_map (sample_driver never [] (sample_image 3 0 0 0)) sample_ctx
    (sample_image 3 77 64 32) [] = (None, []).
Proof.
  apply (proj1 (va_image_map_outcome
                  (sample_driver never [] (sample_image 3 0 0 0)) sample_ctx
                  (sample_image 3 77 64 32) [])).
  reflexivity.
Defined.

(** The lookup misses when the table has no fourcc for the format or the
    registry does not list that fourcc. *)
Lemma va_image_format_from_imgfmt_miss (fs : va_image_formats) (fmt : mp_imgfmt) :
  va_fourcc_from_imgfmt fmt = 0 \/
  (forall e, In e (entries fs) -> fourcc e <> va_fourcc_from_imgfmt fmt) ->
  va_image_format_from_imgfmt (Some fs) fmt = None.
Proof.
  rewrite va_image_format_from_imgfmt_find. intros [-> | Hnone]; [reflexivity |].
  destruct (_ =? 0); [reflexivity |].
  destruct (List.find _ (entries fs)) as [e |] eqn:Ef; [| reflexivity].
  apply find_some in Ef as [Hin He]. apply Z.eqb_eq in He.
  exfalso. exact (Hnone e Hin He).
Qed.

(** X16: an upload fails without calling the driver and without touching
    the surface when the source format has no fourcc in the table (as for
    another hardware surface) or the registry does not list that fourcc;
    it fails as soon as no view can be had; and when the view cannot be
    mapped it fails without copying, unmapping or committing anything. *)
Theorem va_surface_upload_failures (drv : va_driver) (surface : va_surface)
    (mpi : mp_image) (log : call_log) :
  let registry := image_formats (ctx (p surface)) in
  (va_fourcc_from_imgfmt (imgfmt mpi) = 0 \/
   (forall e, In e (entries registry) ->
              fourcc e <> va_fourcc_from_imgfmt (imgfmt mpi)) ->
   va_surface_upload drv surface mpi log = (false, surface, log)) /\
  (forall fmt s1 log1,
      va_image_format_from_imgfmt (Some registry) (imgfmt mpi) = Some fmt ->
      va_surface_image_alloc drv surface (Some fmt) log = (None, s1, log1) ->
      va_surface_upload drv surface mpi log = (false, s1, log1) /\
      image_id (image (p s1)) = VA_INVALID_ID) /\
  (forall fmt view s1 log1 log2,
      va_image_format_from_imgfmt (Some registry) (imgfmt mpi) = Some fmt ->
      va_surface_image_alloc drv surface (Some fmt) log = (Some view, s1, log1) ->
      va_image_map drv (ctx (p s1)) (image (p s1)) log1 = (None, log2) ->
      va_surface_upload drv surface mpi log = (false, s1, log2) /\
      (log2 = log1 \/
       log2 = log1 ++ [vaMapBuffer (ctx_display (ctx (p s1)))
                         (buf (image (p s1)))])).
Proof.
  cbv zeta. unfold va_surface_upload. st_unfold. split; [| split].
  - intros Hmiss. rewrite (va_image_format_from_imgfmt_miss _ _ Hmiss).
    reflexivity.
  - intros fmt s1 log1 -> Ha. rewrite Ha. split; [reflexivity |].
    destruct (view_cached surface fmt) eqn:Ehit.
    + unfold va_surface_image_alloc in Ha. unfold view_cached in Ehit.
      rewrite Ehit in Ha. discriminate Ha.
    + destruct (va_surface_image_destroy drv surface log) as [s0 log0] eqn:Ed.
      rewrite (va_surface_image_alloc_miss drv surface s0 fmt log log0 Ehit Ed)
        in Ha.
      cbv zeta in Ha. destruct (derive_accepted _ _ _ _); [discriminate Ha |].
      destruct (_ =? VA_STATUS_SUCCESS); [discriminate Ha |].
      injection Ha as <- _. reflexivity.
  - intros fmt view s1 log1 log2 -> -> Hm. rewrite Hm. split; [reflexivity |].
    destruct (va_image_map_log _ _ _ _ _ _ Hm) as ([] & -> & _);
      [right; reflexivity | left; apply app_nil_r].
Qed.

Lemma va_surface_upload_failures_witness :
  va_surface_upload (sample_driver never [] (sample_image 3 0 0 0))
    (sample_surface (sample_image 3 VA_FOURCC_NV12 64 32) true)
    {| imgfmt := IMGFMT_RGBA; mpi_w := 64; mpi_h := 32;
       planes := [65536; 0; 0; 0]; stride := [256; 0; 0; 0] |}
    [] =
  (false, sample_surface (sample_image 3 VA_FOURCC_NV12 64 32) true, []).
Proof.
  apply (proj1 (va_surface_upload_failures
                  (sample_driver never [] (sample_image 3 0 0 0))
                  (sample_surface (sample_image 3 VA_FOURCC_NV12 64 32) true)
                  {| imgfmt := IMGFMT_RGBA; mpi_w := 64; mpi_h := 32;
                     planes := [65536; 0; 0; 0]; stride := [256; 0; 0; 0] |}
                  [])).
  right. intros e [<- | [<- | []]]; vm_compute; discriminate.
Defined.

(** The descriptor found for a format translates back to that format. *)
Lemma va_image_format_from_imgfmt_translates (fs : va_image_formats)
    (fmt : mp_imgfmt) (e : VAImageFormat) :
  va_image_format_from_imgfmt (Some fs) fmt = Some e ->
  va_fourcc_to_imgfmt (fourcc e) = fmt.
Proof.
  rewrite va_image_format_from_imgfmt_find.
  destruct (va_fourcc_from_imgfmt fmt =? 0) eqn:E0; [discriminate |].
  apply Z.eqb_neq in E0. intros Hfind.
  apply find_some in Hfind as [_ He]. apply Z.eqb_eq in He.
  rewrite He. apply va_fourcc_roundtrip. exact E0.
Qed.

(** X17: an upload that reports success has found a descriptor, obtained
    a view, mapped it, copied the source into the mapped image and unmapped
    it, and has then either committed successfully or made no further call
    because the view is derived; and if the view has the fourcc that was
    asked for, the image copied into has the pixel format of the source. *)
Theorem va_surface_upload_success (drv : va_driver) (surface s' : va_surface)
    (mpi : mp_image) (log log' : call_log) :
  va_surface_upload drv surface mpi log = (true, s', log') ->
  exists fmt view img log1,
    va_image_format_from_imgfmt (Some (image_formats (ctx (p surface))))
      (imgfmt mpi) = Some fmt /\
    va_surface_image_alloc drv surface (Some fmt) log = (Some view, s', log1) /\
    va_image_map drv (ctx (p s')) (image (p s')) log1 =
    (Some img, log1 ++ [vaMapBuffer (ctx_display (ctx (p s')))
                          (buf (image (p s')))]) /\
    (exists commit,
        log' = log1 ++ [vaMapBuffer (ctx_display (ctx (p s')))
                          (buf (image (p s')));
                        mp_image_copy img mpi;
                        vaUnmapBuffer (ctx_display (ctx (p s')))
                          (buf (image (p s')))] ++ commit /\
        (is_derived (p s') = true /\ commit = [] \/
         is_derived (p s') = false /\
         exists put, commit = [put] /\ is_vaPutImage2 put = true)) /\
    (fourcc (format (image (p s'))) = fourcc fmt -> imgfmt img = imgfmt mpi).
Proof.
  unfold va_surface_upload, va_image_unmap. st_unfold.
  destruct (va_image_format_from_imgfmt _ _) as [fmt |] eqn:Efmt;
    [| discriminate].
  destruct (va_surface_image_alloc drv surface (Some fmt) log)
    as [[[view |] s1] log1] eqn:Ea; [| discriminate].
  destruct (va_image_map drv (ctx (p s1)) (image (p s1)) log1)
    as [[img |] log2] eqn:Em; [| discriminate].
  destruct (va_image_map_fields _ _ _ _ _ _ Em) as (-> & _ & Hfmt & _).
  destruct (is_derived (p s1)) eqn:Ed; cbn [negb].
  - intros [= <- <-]. exists fmt, view, img, log1.
    repeat split; try assumption.
    + exists []. split; [rewrite <- !app_assoc; reflexivity | left; auto].
    + intros Hfcc. rewrite Hfmt, Hfcc.
      exact (va_image_format_from_imgfmt_translates _ _ _ Efmt).
  - destruct (negb _); [discriminate |].
    intros [= <- <-]. exists fmt, view, img, log1.
    repeat split; try assumption.
    + eexists. split; [rewrite <- !app_assoc; reflexivity |].
      right. split; [exact Ed |]. eexists. split; reflexivity.
    + intros Hfcc. rewrite Hfmt, Hfcc.
      exact (va_image_format_from_imgfmt_translates _ _ _ Efmt).
Qed.

Lemma va_surface_upload_success_witness :
  exists fmt view img log1,
    va_image_format_from_imgfmt (Some registry_nv12_yv12) IMGFMT_NV12 = Some fmt /\
    va_surface_image_alloc
      (sample_driver never [] (sample_image 3 VA_FOURCC_NV12 64 32))
      (sample_surface (sample_image VA_INVALID_ID 0 0 0) false)
      (Some fmt) [] =
    (Some view, sample_surface (sample_image 3 VA_FOURCC_NV12 64 32) true, log1) /\
    va_image_map
      (sample_driver never [] (sample_image 3 VA_FOURCC_NV12 64 32))
      sample_ctx (sample_image 3 VA_FOURCC_NV12 64 32) log1 =
    (Some img, log1 ++ [vaMapBuffer 1 9]) /\
    (exists commit,
        [vaDeriveImage 1 7; vaMapBuffer 1 9; mp_image_copy nv12_view nv12_frame;
         vaUnmapBuffer 1 9] =
        log1 ++ [vaMapBuffer 1 9; mp_image_copy img nv12_frame;
                 vaUnmapBuffer 1 9] ++ commit /\
        (true = true /\ commit = [] \/
         true = false /\ exists put, commit = [put] /\ is_vaPutImage2 put = true)) /\
    (VA_FOURCC_NV12 = fourcc fmt -> imgfmt img = IMGFMT_NV12).
Proof.
  exact (va_surface_upload_success
           (sample_driver never [] (sample_image 3 VA_FOURCC_NV12 64 32))
           (sample_surface (sample_image VA_INVALID_ID 0 0 0) false)
           (sample_surface (sample_image 3 VA_FOURCC_NV12 64 32) true)
           nv12_frame []
           [vaDeriveImage 1 7; vaMapBuffer 1 9;
            mp_image_copy nv12_view nv12_frame; vaUnmapBuffer 1 9]
           eq_refl).
Defined.

(** ** Download *)

(** [va_surface_image_alloc] only adds calls that create or destroy a
    view. *)
Lemma va_surface_image_alloc_calls (drv : va_driver) (surface s' : va_surface)
    (fmt : option VAImageFormat) (log log' : call_log) (r : option VAImage) :
  va_surface_image_alloc drv surface fmt log = (r, s', log') ->
  exists calls, log' = log ++ calls /\ Forall (fun c => is_view_call c = true) calls.
Proof.
  destruct fmt as [fmt |];
    [| intros [= _ _ <-]; exists []; split; [now rewrite app_nil_r | constructor]].
  destruct (view_cached surface fmt) eqn:Ehit.
  - unfold va_surface_image_alloc. unfold view_cached in Ehit. rewrite Ehit.
    intros [= _ _ <-]. exists []. split; [now rewrite app_nil_r | constructor].
  - pose proof (va_surface_image_destroy_eq drv surface log) as Ed.
    destruct (image_id (image (p surface)) =? VA_INVALID_ID);
      rewrite (va_surface_image_alloc_miss drv surface _ fmt log _ Ehit Ed);
      cbv zeta; unfold derive_rejected_log;
      (destruct (derive_accepted _ _ _ _);
       [| destruct (drv_status drv _ (vaDeriveImage _ _) =? VA_STATUS_SUCCESS);
          destruct (drv_status drv _ (vaCreateImage _ _ _ _) =? VA_STATUS_SUCCESS)]);
      intros [= _ _ <-]; eexists;
      (split; [rewrite <- ?app_assoc; cbn [app]; reflexivity |]);
      repeat constructor.
Qed.

Lemma filter_dst_alloc_view_calls (calls : list va_call) :
  Forall (fun c => is_view_call c = true) calls ->
  List.filter is_dst_alloc calls = [].
Proof.
  induction 1 as [| c calls Hc _ IH]; [reflexivity |].
  cbn [List.filter]. rewrite IH. destruct c; try discriminate Hc; reflexivity.
Qed.

(** The image that [try_download] returns, and the destination it
    allocated for it. *)
Lemma try_download_image (drv : va_driver) (surface s' : va_surface)
    (fmt : VAImageFormat) (pool : option Z) (log log' : call_log)
    (r : download_result) :
  try_download drv surface fmt pool log = (r, s', log') ->
  (exists calls,
      log' = log ++ calls /\
      List.filter is_dst_alloc calls = dst_allocs pool r) /\
  (forall dst,
      r = Image dst ->
      imgfmt dst = va_fourcc_to_imgfmt (fourcc fmt) /\
      imgfmt dst = va_fourcc_to_imgfmt (fourcc (format (image (p s')))) /\
      imgfmt dst <> IMGFMT_NONE /\
      mpi_w dst = width (image (p s')) /\
      mpi_h dst = height (image (p s')) /\
      exists before,
        log' = before ++ [vaUnmapBuffer (ctx_display (ctx (p s')))
                            (buf (image (p s')))]).
Proof.
  unfold try_download, va_image_unmap. st_unfold.
  destruct (bool_decide (va_fourcc_to_imgfmt (fourcc fmt) = IMGFMT_NONE)) eqn:En.
  { intros [= <- <- <-]. split; [| discriminate].
    exists []. split; [now rewrite app_nil_r | reflexivity]. }
  apply bool_decide_eq_false_1 in En.
  destruct (va_surface_image_alloc drv surface (Some fmt) log)
    as [[a s1] log1] eqn:Ea.
  destruct (va_surface_image_alloc_calls _ _ _ _ _ _ _ Ea) as (calls & -> & Hcalls).
  pose proof (filter_dst_alloc_view_calls _ Hcalls) as Hnone.
  destruct a as [view |].
  2: { intros [= <- <- <-]. split; [| discriminate]. exists calls. auto. }
  assert (Hlog : forall l',
    (exists extra, l' = (log ++ calls) ++ extra /\
                   List.filter is_dst_alloc extra = dst_allocs pool r) ->
    exists calls0, l' = log ++ calls0 /\
                   List.filter is_dst_alloc calls0 = dst_allocs pool r).
  { intros l' (extra & -> & Hextra). exists (calls ++ extra).
    split; [now rewrite app_assoc |].
    rewrite List.filter_app, Hnone. exact Hextra. }
  destruct (is_derived (p s1)); cbn [negb];
    [| destruct (drv_status drv _ (vaGetImage _ _ _ _ _ _ _) =? VA_STATUS_SUCCESS);
       cbn [negb]].
  3: { intros [= <- <- <-]. split; [| discriminate].
       apply Hlog. eexists. split; reflexivity. }
  all: match goal with |- context [va_image_map ?d ?c ?i ?l] =>
         destruct (va_image_map d c i l) as [[tmp |] l2] eqn:Em
       end.
  all: try (intros [= <- <- <-]; (split; [| discriminate]); apply Hlog;
            destruct (va_image_map_log _ _ _ _ _ _ Em) as (called & -> & _);
            destruct called; rewrite ?app_nil_r;
            first [ exists []; split; [symmetry; apply app_nil_r | reflexivity]
                  | eexists; split; [rewrite <- ?app_assoc |]; reflexivity ]).
  all: destruct (va_image_map_fields _ _ _ _ _ _ Em) as (-> & _ & Hf & _ & Hw & Hh);
    destruct (bool_decide (imgfmt tmp = _)) eqn:Eassert; cbn [negb];
    [ apply bool_decide_eq_true_1 in Eassert;
      destruct pool; intros [= <- <- <-];
      (split;
       [ apply Hlog; eexists;
         (split; [rewrite <- ?app_assoc; reflexivity | reflexivity])
       | intros dst [= <-]; cbn [imgfmt mpi_w mpi_h];
         repeat split; try congruence; eexists; reflexivity ])
    | intros [= <- <- <-]; (split; [| discriminate]); apply Hlog; eexists;
      (split; [rewrite <- ?app_assoc; reflexivity | reflexivity]) ].
Qed.

Lemma try_download_unknown (drv : va_driver) (surface : va_surface)
    (fmt : VAImageFormat) (pool : option Z) (log : call_log) :
  va_fourcc_to_imgfmt (fourcc fmt) = IMGFMT_NONE ->
  try_download drv surface fmt pool log = (Null, surface, log).
Proof.
  intros Hnone. unfold try_download.
  rewrite bool_decide_eq_true_2 by exact Hnone. reflexivity.
Qed.

Lemma download_loop_unknown (drv : va_driver) (formats : list VAImageFormat)
    (surface : va_surface) (pool : option Z) (log : call_log) :
  (forall fmt, In fmt formats -> va_fourcc_to_imgfmt (fourcc fmt) = IMGFMT_NONE) ->
  download_loop drv formats surface pool log = (Null, surface, log).
Proof.
  induction formats as [| fmt rest IH]; intros Hall; [reflexivity |].
  cbn [download_loop]. unfold bind at 1.
  rewrite try_download_unknown by (apply Hall; left; reflexivity).
  apply IH. intros f Hf. apply Hall. right. exact Hf.
Qed.

(** X18: a download whose [vaSyncSurface] fails returns NULL after that one
    call; and when the surface has no view (or a view of unknown fourcc)
    and no registry entry has a fourcc with a generic format, among them
    the empty registry, it returns NULL after the synchronisation alone,
    with the surface untouched. *)
Theorem va_surface_download_nothing_to_try (drv : va_driver)
    (surface : va_surface) (pool : option Z) (log : call_log) :
  let sync := vaSyncSurface (display (p surface)) (surface_id surface) in
  (drv_status drv log sync <> VA_STATUS_SUCCESS ->
   va_surface_download drv surface pool log = (Null, surface, log ++ [sync])) /\
  (image_id (image (p surface)) = VA_INVALID_ID \/
   va_fourcc_to_imgfmt (fourcc (format (image (p surface)))) = IMGFMT_NONE ->
   (forall fmt, In fmt (entries (image_formats (ctx (p surface)))) ->
                va_fourcc_to_imgfmt (fourcc fmt) = IMGFMT_NONE) ->
   va_surface_download drv surface pool log = (Null, surface, log ++ [sync])).
Proof.
  cbv zeta. unfold va_surface_download, check_va_status. st_unfold. split.
  - intros Hfail. apply Z.eqb_neq in Hfail. rewrite Hfail. reflexivity.
  - intros Hview Hall.
    destruct (drv_status drv log _ =? VA_STATUS_SUCCESS); cbn [negb];
      [| reflexivity].
    destruct (image_id (image (p surface)) =? VA_INVALID_ID) eqn:Ei; cbn [negb].
    + apply download_loop_unknown. exact Hall.
    + destruct Hview as [Hview | Hview];
        [apply Z.eqb_neq in Ei; contradiction |].
      rewrite try_download_unknown by exact Hview.
      apply download_loop_unknown. exact Hall.
Qed.

Lemma va_surface_download_nothing_to_try_witness :
  va_surface_download (sample_driver never [] (sample_image 3 0 0 0))
    {| surface_id := 7; w := 64; h := 32; rt_format := 1;
       p := {| ctx := {| ctx_display := 1;
                         image_formats := {| entries := [image_format 77] |} |};
               display := 1; image := sample_image VA_INVALID_ID 0 0 0;
               is_derived := false |} |}
    None [] =
  (Null,
   {| surface_id := 7; w := 64; h := 32; rt_format := 1;
      p := {| ctx := {| ctx_display := 1;
                        image_formats := {| entries := [image_format 77] |} |};
              display := 1; image := sample_image VA_INVALID_ID 0 0 0;
              is_derived := false |} |},
   [vaSyncSurface 1 7]).
Proof.
  apply (proj2 (va_surface_download_nothing_to_try
                  (sample_driver never [] (sample_image 3 0 0 0))
                  {| surface_id := 7; w := 64; h := 32; rt_format := 1;
                     p := {| ctx := {| ctx_display := 1;
                                       image_formats :=
                                         {| entries := [image_format 77] |} |};
                             display := 1;
                             image := sample_image VA_INVALID_ID 0 0 0;
                             is_derived := false |} |}
                  None [])).
  - left. reflexivity.
  - intros fmt [<- | []]. reflexivity.
Defined.

(** X19: an image returned by a download has the generic format of the
    fourcc of the view the surface is left with, which is not IMGFMT_NONE,
    and that view's width and height; its format is that of the view the
    surface held on entry or of a registry entry; and the last call made
    is the [vaUnmapBuffer] of that view's buffer. *)
Theorem va_surface_download_image (drv : va_driver) (surface s' : va_surface)
    (pool : option Z) (log log' : call_log) (dst : mp_image) :
  va_surface_download drv surface pool log = (Image dst, s', log') ->
  imgfmt dst = va_fourcc_to_imgfmt (fourcc (format (image (p s')))) /\
  imgfmt dst <> IMGFMT_NONE /\
  mpi_w dst = width (image (p s')) /\
  mpi_h dst = height (image (p s')) /\
  (exists fmt,
      (fmt = format (image (p surface)) \/
       In fmt (entries (image_formats (ctx (p surface))))) /\
      imgfmt dst = va_fourcc_to_imgfmt (fourcc fmt)) /\
  (exists before,
      log' = before ++ [vaUnmapBuffer (ctx_display (ctx (p s')))
                          (buf (image (p s')))]).
Proof.
  assert (Htry : forall s fmt l,
    try_download drv s fmt pool l = (Image dst, s', log') ->
    imgfmt dst = va_fourcc_to_imgfmt (fourcc (format (image (p s')))) /\
    imgfmt dst <> IMGFMT_NONE /\
    mpi_w dst = width (image (p s')) /\
    mpi_h dst = height (image (p s')) /\
    imgfmt dst = va_fourcc_to_imgfmt (fourcc fmt) /\
    (exists before,
        log' = before ++ [vaUnmapBuffer (ctx_display (ctx (p s')))
                            (buf (image (p s')))])).
  { intros s fmt l Ht.
    destruct (proj2 (try_download_image _ _ _ _ _ _ _ _ Ht) dst eq_refl)
      as (H1 & H2 & H3 & H4 & H5 & H6).
    repeat split; assumption. }
  assert (Hloop : forall s l,
    download_loop drv (entries (image_formats (ctx (p surface)))) s pool l =
    (Image dst, s', log') ->
    imgfmt dst = va_fourcc_to_imgfmt (fourcc (format (image (p s')))) /\
    imgfmt dst <> IMGFMT_NONE /\
    mpi_w dst = width (image (p s')) /\
    mpi_h dst = height (image (p s')) /\
    (exists fmt,
        (fmt = format (image (p surface)) \/
         In fmt (entries (image_formats (ctx (p surface))))) /\
        imgfmt dst = va_fourcc_to_imgfmt (fourcc fmt)) /\
    (exists before,
        log' = before ++ [vaUnmapBuffer (ctx_display (ctx (p s')))
                            (buf (image (p s')))])).
  { intros s l Hl. apply download_loop_first in Hl
      as [[[=] _] | [_ (tried & fmt & later & s1 & l1 & Heq & _ & Ht)]].
    destruct (Htry _ _ _ Ht) as (H1 & H2 & H3 & H4 & H5 & H6).
    repeat split; try assumption.
    exists fmt. split; [right; rewrite Heq; apply in_elt | exact H5]. }
  unfold va_surface_download. st_unfold.
  destruct (negb (check_va_status _)); [discriminate |].
  destruct (negb (image_id (image (p surface)) =? VA_INVALID_ID)).
  - destruct (try_download drv surface _ pool _) as [[a s1] l1] eqn:Et.
    destruct a.
    + intros [= -> -> ->].
      destruct (Htry _ _ _ Et) as (H1 & H2 & H3 & H4 & H5 & H6).
      repeat split; try assumption.
      exists (format (image (p surface))). split; [left; reflexivity | exact H5].
    + apply Hloop.
    + discriminate.
  - apply Hloop.
Qed.

Lemma va_surface_download_image_witness :
  imgfmt nv12_dst =
  va_fourcc_to_imgfmt
    (fourcc (format (image (p (search_surface
                                 (sample_image 4 VA_FOURCC_NV12 64 32)))))).
Proof.
  refine (proj1 (va_surface_download_image
            (sample_driver fails_search [] (sample_image 3 0 0 0))
            (search_surface (sample_image VA_INVALID_ID 0 0 0))
            (search_surface (sample_image 4 VA_FOURCC_NV12 64 32))
            None []
            [vaSyncSurface 1 7;
             vaDeriveImage 1 7; vaCreateImage 1 (image_format VA_FOURCC_RGBA) 64 32;
             vaDeriveImage 1 7; vaCreateImage 1 (image_format VA_FOURCC_NV12) 64 32;
             vaGetImage 1 7 0 0 64 32 4; vaMapBuffer 1 9;
             mp_image_alloc IMGFMT_NV12 64 32; mp_image_copy nv12_dst nv12_view;
             vaUnmapBuffer 1 9]
            nv12_dst _)).
  reflexivity.
Defined.

(** X20: the fast path of a download, the attempt with the format of the
    view the surface holds, reuses that view: whatever the attempt yields,
    the surface is left exactly as it was and no view is derived, created
    or destroyed. *)
Theorem try_download_fast_path_keeps_view (drv : va_driver)
    (surface s' : va_surface) (pool : option Z) (log log' : call_log)
    (r : download_result) :
  image_id (image (p surface)) <> VA_INVALID_ID ->
  try_download drv surface (format (image (p surface))) pool log = (r, s', log') ->
  s' = surface /\
  exists calls, log' = log ++ calls /\ List.filter is_view_call calls = [].
Proof.
  intros Hid. apply Z.eqb_neq in Hid.
  unfold try_download, va_image_unmap, va_surface_image_alloc. st_unfold.
  rewrite Hid, Z.eqb_refl. cbn [negb andb].
  destruct (bool_decide _).
  { intros [= _ <- <-]. split; [reflexivity |].
    exists []. split; [now rewrite app_nil_r | reflexivity]. }
  destruct (is_derived (p surface)); cbn [negb];
    [| destruct (drv_status drv _ (vaGetImage _ _ _ _ _ _ _) =? VA_STATUS_SUCCESS);
       cbn [negb]].
  3: { intros [= _ <- <-]. split; [reflexivity |].
       eexists. split; reflexivity. }
  all: match goal with |- context [va_image_map ?d ?c ?i ?l] =>
         destruct (va_image_map d c i l) as [[tmp |] l2] eqn:Em
       end;
    destruct (va_image_map_log _ _ _ _ _ _ Em) as (called & -> & _);
    destruct called;
    try (destruct (negb (bool_decide _)); [| destruct pool]);
    intros [= _ <- <-]; (split; [reflexivity |]);
    rewrite ?app_nil_r;
    first [ exists []; split; [symmetry; apply app_nil_r | reflexivity]
          | eexists; split; [rewrite <- ?app_assoc |]; reflexivity ].
Qed.

Lemma try_download_fast_path_keeps_view_witness :
  exists calls,
    [vaGetImage 1 7 0 0 64 32 4; vaMapBuffer 1 9;
     mp_image_alloc IMGFMT_NV12 64 32; mp_image_copy nv12_dst nv12_view;
     vaUnmapBuffer 1 9] = [] ++ calls /\
    List.filter is_view_call calls = [].
Proof.
  exact (proj2 (try_download_fast_path_keeps_view
                  (sample_driver never [] (sample_image 3 0 0 0))
                  (sample_surface (sample_image 4 VA_FOURCC_NV12 64 32) false)
                  (sample_surface (sample_image 4 VA_FOURCC_NV12 64 32) false)
                  None []
                  [vaGetImage 1 7 0 0 64 32 4; vaMapBuffer 1 9;
                   mp_image_alloc IMGFMT_NV12 64 32;
                   mp_image_copy nv12_dst nv12_view; vaUnmapBuffer 1 9]
                  (Image nv12_dst)
                  ltac:(vm_compute; discriminate) eq_refl)).
Defined.

Lemma download_loop_allocs (drv : va_driver) (pool : option Z)
    (formats : list VAImageFormat) :
  forall (surface s' : va_surface) (log log' : call_log) (r : download_result),
    download_loop drv formats surface pool log = (r, s', log') ->
    exists calls,
      log' = log ++ calls /\ List.filter is_dst_alloc calls = dst_allocs pool r.
Proof.
  induction formats as [| fmt rest IH]; intros surface s' log log' r.
  - intros [= <- _ <-]. exists []. split; [now rewrite app_nil_r | reflexivity].
  - cbn [download_loop]. unfold bind at 1.
    destruct (try_download drv surface fmt pool log) as [[a s1] log1] eqn:Et.
    destruct (proj1 (try_download_image _ _ _ _ _ _ _ _ Et))
      as (calls1 & -> & Hc1).
    destruct a; try (intros [= <- _ <-]; exists calls1; split; auto).
    intros Hl. destruct (IH _ _ _ _ _ Hl) as (calls2 & -> & Hc2).
    exists (calls1 ++ calls2). split; [now rewrite app_assoc |].
    rewrite List.filter_app, Hc1, Hc2. reflexivity.
Qed.

(** X21: a download allocates a destination image only for the attempt
    that succeeds: among the calls it makes there is exactly one allocation
    (from the pool if one is given) when it returns an image, that of the
    returned image's format and size, and none when it returns NULL or
    stops at the assertion. *)
Theorem va_surface_download_allocates_once (drv : va_driver)
    (surface s' : va_surface) (pool : option Z) (log log' : call_log)
    (r : download_result) :
  va_surface_download drv surface pool log = (r, s', log') ->
  exists calls,
    log' = log ++ calls /\ List.filter is_dst_alloc calls = dst_allocs pool r.
Proof.
  unfold va_surface_download. st_unfold.
  destruct (negb (check_va_status _)).
  { intros [= <- _ <-]. eexists. split; reflexivity. }
  destruct (negb (image_id (image (p surface)) =? VA_INVALID_ID)).
  - destruct (try_download drv surface _ pool _) as [[a s1] log1] eqn:Et.
    destruct (proj1 (try_download_image _ _ _ _ _ _ _ _ Et))
      as (calls1 & -> & Hc1).
    destruct a;
      try (intros [= <- _ <-]; eexists;
           (split; [rewrite <- app_assoc; reflexivity |]); exact Hc1).
    intros Hl. destruct (download_loop_allocs _ _ _ _ _ _ _ _ Hl)
      as (calls2 & -> & Hc2).
    eexists. split; [rewrite <- !app_assoc; reflexivity |].
    cbn [app List.filter is_dst_alloc].
    rewrite List.filter_app, Hc1, Hc2. reflexivity.
  - intros Hl. destruct (download_loop_allocs _ _ _ _ _ _ _ _ Hl)
      as (calls2 & -> & Hc2).
    eexists. split; [rewrite <- !app_assoc; reflexivity |].
    cbn [app List.filter is_dst_alloc]. exact Hc2.
Qed.

Lemma va_surface_download_allocates_once_witness :
  exists calls,
    [vaSyncSurface 1 7;
     vaDeriveImage 1 7; vaCreateImage 1 (image_format VA_FOURCC_RGBA) 64 32;
     vaDeriveImage 1 7; vaCreateImage 1 (image_format VA_FOURCC_NV12) 64 32;
     vaGetImage 1 7 0 0 64 32 4; vaMapBuffer 1 9;
     mp_image_alloc IMGFMT_NV12 64 32; mp_image_copy nv12_dst nv12_view;
     vaUnmapBuffer 1 9] = [] ++ calls /\
    List.filter is_dst_alloc calls = [mp_image_alloc IMGFMT_NV12 64 32].
Proof.
  exact (va_surface_download_allocates_once
           (sample_driver fails_search [] (sample_image 3 0 0 0))
           (search_surface (sample_image VA_INVALID_ID 0 0 0))
           (search_surface (sample_image 4 VA_FOURCC_NV12 64 32))
           None []
           [vaSyncSurface 1 7;
            vaDeriveImage 1 7; vaCreateImage 1 (image_format VA_FOURCC_RGBA) 64 32;
            vaDeriveImage 1 7; vaCreateImage 1 (image_format VA_FOURCC_NV12) 64 32;
            vaGetImage 1 7 0 0 64 32 4; vaMapBuffer 1 9;
            mp_image_alloc IMGFMT_NV12 64 32; mp_image_copy nv12_dst nv12_view;
            vaUnmapBuffer 1 9]
           (Image nv12_dst) eq_refl).
Defined.

(** ** The entry points that take images *)

(** X22: [va_surface_upload_image] and [va_surface_image_alloc_imgfmt]
    return -1 without any call and without touching anything when the
    image is NULL, is not an IMGFMT_VAAPI image or carries no surface; they
    return 0 or -1, and 0 exactly when the upload, respectively the
    descriptor lookup and the view allocation, succeeded on the surface the
    image carries. *)
Theorem va_surface_image_entry_points (drv : va_driver) (img : option mp_image)
    (pointee : va_surface) (fmt : mp_imgfmt) (sw_src : mp_image)
    (log : call_log) :
  (va_surface_in_mp_image img = 0 ->
   va_surface_upload_image drv img pointee sw_src log = (-1, pointee, log) /\
   va_surface_image_alloc_imgfmt drv img pointee fmt log = (-1, pointee, log)) /\
  (forall code s' log',
      va_surface_upload_image drv img pointee sw_src log = (code, s', log') ->
      (code = 0 \/ code = -1) /\
      (code = 0 <->
       va_surface_in_mp_image img <> 0 /\
       va_surface_upload drv pointee sw_src log = (true, s', log'))) /\
  (forall code s' log',
      va_surface_image_alloc_imgfmt drv img pointee fmt log = (code, s', log') ->
      (code = 0 \/ code = -1) /\
      (code = 0 <->
       va_surface_in_mp_image img <> 0 /\
       exists found,
         va_image_format_from_imgfmt
           (Some (image_formats (ctx (p pointee)))) fmt = Some found /\
         va_surface_image_alloc drv pointee (Some found) log =
         (Some (image (p s')), s', log'))).
Proof.
  unfold va_surface_upload_image, va_surface_image_alloc_imgfmt. st_unfold.
  split; [| split].
  - intros Hnull. rewrite Hnull. cbn. split; reflexivity.
  - intros code s' log'.
    destruct (va_surface_in_mp_image img =? 0) eqn:En.
    + intros [= <- <- <-]. split; [right; reflexivity |].
      apply Z.eqb_eq in En. split; [discriminate | intros [H _]; contradiction].
    + apply Z.eqb_neq in En.
      destruct (va_surface_upload drv pointee sw_src log) as [[ok s1] log1].
      destruct ok; cbn [negb]; intros [= <- <- <-].
      * split; [left; reflexivity |]. split; [auto | reflexivity].
      * split; [right; reflexivity |].
        split; [discriminate | intros [_ H]; discriminate H].
  - intros code s' log'.
    destruct (va_surface_in_mp_image img =? 0) eqn:En.
    + intros [= <- <- <-]. split; [right; reflexivity |].
      apply Z.eqb_eq in En. split; [discriminate | intros [H _]; contradiction].
    + apply Z.eqb_neq in En.
      destruct (va_image_format_from_imgfmt _ fmt) as [found |].
      * destruct (va_surface_image_alloc drv pointee (Some found) log)
          as [[[view |] s1] log1] eqn:Ea; intros [= <- <- <-].
        -- split; [left; reflexivity |]. split; [| reflexivity].
           intros _. split; [exact En |]. exists found. split; [reflexivity |].
           rewrite <- (va_surface_image_alloc_returns_view _ _ _ _ _ _ _ Ea).
           exact Ea.
        -- split; [right; reflexivity |]. split; [discriminate |].
           intros [_ (found' & [= <-] & H)]. rewrite Ea in H. discriminate H.
      * intros [= <- <- <-]. split; [right; reflexivity |].
        split; [discriminate | intros [_ (found' & [=] & _)]].
Qed.

Lemma va_surface_image_entry_points_witness :
  va_surface_upload_image (sample_driver never [] (sample_image 3 0 0 0))
    (Some nv12_frame)
    (sample_surface (sample_image 3 VA_FOURCC_NV12 64 32) true)
    nv12_frame [] =
  (-1, sample_surface (sample_image 3 VA_FOURCC_NV12 64 32) true, []).
Proof.
  apply (proj1 (va_surface_image_entry_points
                  (sample_driver never [] (sample_image 3 0 0 0))
                  (Some nv12_frame)
                  (sample_surface (sample_image 3 VA_FOURCC_NV12 64 32) true)
                  IMGFMT_NV12 nv12_frame [])).
  reflexivity.
Defined.
